(** * Decision-route backend: a shallow embedding of [main.py]

    The development follows the source file top to bottom:
    Python strings and the few built-ins the code calls, the [re] pattern
    of the budget extraction with a backtracking matcher, the pydantic
    models, the object store in which [Recommendation] instances live,
    [_generate_recommendations] and the [/api/decision/analyze] handler.
    The theorems about them come last. *)

From Stdlib Require Import ZArith List String Ascii Bool Lia.
From stdpp Require Import base list option.

Local Open Scope Z_scope.

(** ** Python strings *)

(** A Python [str] is a sequence of Unicode code points; [len] counts
    them. *)
Definition str := list Z.

Module Utf8.

(** The source file is UTF-8; its literals are written here as Rocq
    strings (byte sequences) and decoded to code points. *)
Fixpoint decode (bs : list Z) : str :=
  match bs with
  | [] => []
  | b0 :: r0 =>
      if b0 <? 0x80 then b0 :: decode r0
      else if b0 <? 0xE0 then
        match r0 with
        | b1 :: r1 => ((b0 - 0xC0) * 64 + (b1 - 0x80)) :: decode r1
        | _ => []
        end
      else if b0 <? 0xF0 then
        match r0 with
        | b1 :: b2 :: r2 =>
            ((b0 - 0xE0) * 4096 + (b1 - 0x80) * 64 + (b2 - 0x80)) :: decode r2
        | _ => []
        end
      else
        match r0 with
        | b1 :: b2 :: b3 :: r3 =>
            ((b0 - 0xF0) * 262144 + (b1 - 0x80) * 4096
             + (b2 - 0x80) * 64 + (b3 - 0x80)) :: decode r3
        | _ => []
        end
  end.

Definition bytes (s : string) : list Z :=
  map (fun a => Z.of_N (N_of_ascii a)) (list_ascii_of_string s).

End Utf8.

(** [py "..."] is the Python literal ["..."]. *)
Definition py (s : string) : str := Utf8.decode (Utf8.bytes s).

(** [Py_UNICODE_ISSPACE]: what [str.strip] removes and what [\s] matches
    on a [str] pattern. *)
Definition isspace (c : Z) : bool :=
  ((9 <=? c) && (c <=? 13)) || ((28 <=? c) && (c <=? 32))
  || (c =? 0x85) || (c =? 0xA0) || (c =? 0x1680)
  || ((0x2000 <=? c) && (c <=? 0x200A))
  || (c =? 0x2028) || (c =? 0x2029) || (c =? 0x202F)
  || (c =? 0x205F) || (c =? 0x3000).

(** The part of the Unicode character database that [str.lower], the
    pattern class [\d] and [int] consult.  CPython reads all three from
    its generated tables: [\d] on a [str] pattern is
    [Py_UNICODE_ISDECIMAL], that is [Py_UNICODE_TODECIMAL c >= 0], and
    [int] converts the same characters with [Py_UNICODE_TODECIMAL].
    A decimal digit is no blank, sign or underscore. *)
Class Unicode := {
  lower : str -> str;
  to_decimal : Z -> option Z;
  decimal_plain : forall c d, to_decimal c = Some d ->
    isspace c = false /\ c <> 43 /\ c <> 45 /\ c <> 95
}.

Fixpoint lstrip (s : str) : str :=
  match s with
  | c :: s' => if isspace c then lstrip s' else s
  | [] => []
  end.

Definition rstrip (s : str) : str := rev (lstrip (rev s)).

(** [s.strip()] *)
Definition strip (s : str) : str := rstrip (lstrip s).

(** [s.startswith(p)], returning the rest of [s] *)
Fixpoint strip_prefix (p s : str) : option str :=
  match p, s with
  | [], _ => Some s
  | a :: p', b :: s' => if a =? b then strip_prefix p' s' else None
  | _ :: _, [] => None
  end.

(** [k in text] for two strings: substring containment *)
Fixpoint contains (k text : str) : bool :=
  match strip_prefix k text with
  | Some _ => true
  | None => match text with
            | [] => false
            | _ :: text' => contains k text'
            end
  end.

(** The truth value of a string: false when empty. *)
Definition truthy (s : str) : bool :=
  match s with
  | [] => false
  | _ :: _ => true
  end.

(** [a == b] on strings *)
Fixpoint str_eqb (a b : str) : bool :=
  match a, b with
  | [], [] => true
  | x :: a', y :: b' => (x =? y) && str_eqb a' b'
  | _, _ => false
  end.

(** [x in l] for a list [l] of strings *)
Definition member (x : str) (l : list str) : bool := existsb (str_eqb x) l.

(** [any(k in text for k in ks)] *)
Definition any_in (ks : list str) (text : str) : bool :=
  existsb (fun k => contains k text) ks.

Module Format.

(** The characters of a decimal numeral. *)
Fixpoint codes (d : Decimal.uint) : str :=
  match d with
  | Decimal.Nil => []
  | Decimal.D0 d' => 48 :: codes d'
  | Decimal.D1 d' => 49 :: codes d'
  | Decimal.D2 d' => 50 :: codes d'
  | Decimal.D3 d' => 51 :: codes d'
  | Decimal.D4 d' => 52 :: codes d'
  | Decimal.D5 d' => 53 :: codes d'
  | Decimal.D6 d' => 54 :: codes d'
  | Decimal.D7 d' => 55 :: codes d'
  | Decimal.D8 d' => 56 :: codes d'
  | Decimal.D9 d' => 57 :: codes d'
  end.

(** Decimal digits of a non-negative integer, most significant first. *)
Definition digits (n : Z) : str := codes (N.to_uint (Z.to_N n)).

(** A comma before every group of three digits, counted from the
    right; the argument is the reversed digit string. *)
Fixpoint group3 (rds : str) : str :=
  match rds with
  | a :: b :: c :: ((_ :: _) as rest) => a :: b :: c :: 44 :: group3 rest
  | _ => rds
  end.

(** [f"{n:,}"] *)
Definition thousands (n : Z) : str :=
  let body := rev (group3 (rev (digits (Z.abs n)))) in
  if n <? 0 then 45 :: body else body.

End Format.

(** ** The [re] module, as far as the source uses it *)

Module Re.

(** Pattern syntax: the constructs that occur in the budget pattern. *)
Inductive regex :=
| Lit (l : str)                    (* a literal string *)
| Digit                            (* \d *)
| Space                            (* \s *)
| Seq (r1 r2 : regex)              (* r1r2 *)
| Alt (r1 r2 : regex)              (* r1|r2, left alternative first *)
| Opt (r : regex)                  (* r?, greedy *)
| Rep (lo hi : nat) (r : regex)    (* r{lo,hi}, greedy *)
| Group (n : nat) (r : regex).     (* (r), capture group number n *)

(** Capture groups set so far, latest first. *)
Definition groups := list (nat * str).

(** A match object: the matched text and its groups. *)
Record Match := { whole : str; captured : groups }.

Section Matcher.
Context `{Unicode}.
Context {R : Type}.

(** Backtracking matcher in continuation-passing style:
    [matchr r s g k] matches [r] at the front of [s] and hands the
    rest of the input and the groups to [k]; when [k] fails, the next
    way of matching [r] is tried, in the order of [sre]: longest
    repetition first, left alternative first. *)
Fixpoint matchr (r : regex) (s : str) (g : groups)
    (k : str -> groups -> option R) {struct r} : option R :=
  match r with
  | Lit l =>
      match strip_prefix l s with
      | Some s' => k s' g
      | None => None
      end
  | Digit =>
      match s with
      | c :: s' => if to_decimal c is Some _ then k s' g else None
      | [] => None
      end
  | Space =>
      match s with
      | c :: s' => if isspace c then k s' g else None
      | [] => None
      end
  | Seq r1 r2 => matchr r1 s g (fun s' g' => matchr r2 s' g' k)
  | Alt r1 r2 =>
      match matchr r1 s g k with
      | Some x => Some x
      | None => matchr r2 s g k
      end
  | Opt r1 =>
      match matchr r1 s g k with
      | Some x => Some x
      | None => k s g
      end
  | Rep lo hi r1 =>
      (fix rep (lo hi : nat) (s : str) (g : groups)
           (k : str -> groups -> option R) {struct hi} : option R :=
         match hi with
         | O => if lo is O then k s g else None
         | S hi' =>
             match matchr r1 s g
                     (fun s' g' => rep (Nat.pred lo) hi' s' g' k) with
             | Some x => Some x
             | None => if lo is O then k s g else None
             end
         end) lo hi s g k
  | Group n r1 =>
      matchr r1 s g
        (fun s' g' =>
           k s' ((n, take (length s - length s')%nat s) :: g'))
  end.

(** What a pattern denotes: [denotes r p g g'] when [r] can match
    exactly the string [p], taking the groups from [g] to [g'].  The
    matcher explores these readings in its order of preference. *)
Fixpoint denotes (r : regex) (p : str) (g g' : groups) {struct r} : Prop :=
  match r with
  | Lit l => p = l /\ g' = g
  | Digit => exists c d, p = [c] /\ to_decimal c = Some d /\ g' = g
  | Space => exists c, p = [c] /\ isspace c = true /\ g' = g
  | Seq r1 r2 =>
      exists p1 p2 g1,
        p = p1 ++ p2 /\ denotes r1 p1 g g1 /\ denotes r2 p2 g1 g'
  | Alt r1 r2 => denotes r1 p g g' \/ denotes r2 p g g'
  | Opt r1 => denotes r1 p g g' \/ (p = [] /\ g' = g)
  | Rep lo hi r1 =>
      (fix reps (lo hi : nat) (p : str) (g g' : groups) {struct hi} : Prop :=
         match hi with
         | O => lo = O /\ p = [] /\ g' = g
         | S hi' =>
             (exists p1 p2 g1,
                p = p1 ++ p2 /\ denotes r1 p1 g g1
                /\ reps (Nat.pred lo) hi' p2 g1 g')
             \/ (lo = O /\ p = [] /\ g' = g)
         end) lo hi p g g'
  | Group n r1 => exists g1, denotes r1 p g g1 /\ g' = (n, p) :: g1
  end.
End Matcher.

(** [re.match]: the pattern anchored at the front of [s]. *)
Definition match_here `{Unicode} (r : regex) (s : str) : option Match :=
  matchr r s []
    (fun s' g =>
       Some {| whole := take (length s - length s')%nat s; captured := g |}).

(** [re.search]: the first position, from the left, where the pattern
    matches. *)
Fixpoint search `{Unicode} (r : regex) (s : str) : option Match :=
  match match_here r s with
  | Some m => Some m
  | None => match s with
            | [] => None
            | _ :: s' => search r s'
            end
  end.

(** [m.group(n)]: [None] for a group that took no part in the match. *)
Fixpoint lookup_group (n : nat) (g : groups) : option str :=
  match g with
  | [] => None
  | (i, v) :: g' => if Nat.eqb i n then Some v else lookup_group n g'
  end.

Definition group (m : Match) (n : nat) : option str :=
  lookup_group n (captured m).

End Re.

(** [r"(\d{2,3})\s?(k|mil|000|k\s?mxn|mxn)"] *)
Definition budget_pattern : Re.regex :=
  Re.Seq (Re.Group 1 (Re.Rep 2 3 Re.Digit))
    (Re.Seq (Re.Opt Re.Space)
       (Re.Group 2
          (Re.Alt (Re.Lit (py "k"))
             (Re.Alt (Re.Lit (py "mil"))
                (Re.Alt (Re.Lit (py "000"))
                   (Re.Alt
                      (Re.Seq (Re.Lit (py "k"))
                         (Re.Seq (Re.Opt Re.Space) (Re.Lit (py "mxn"))))
                      (Re.Lit (py "mxn")))))))).

(** ** Exceptions

    Every exception the modelled code can meet; all of them are
    instances of [Exception], so [except Exception] catches each. *)
Inductive exn :=
| TypeError
| ValueError
| IndexError
| ImportError
| SystemError                                   (* a dangling reference in the store *)
| HTTPException (status_code : Z) (detail : str)
| CollaboratorError (what : str).               (* raised by [create_document] *)

Definition result (A : Type) : Type := exn + A.

Section Builtins.
Context `{Unicode}.

(** Digits of an [int] literal, with single underscores between them. *)
Fixpoint int_digits (s : str) (acc : Z) (after_digit : bool) : option Z :=
  match s with
  | [] => if after_digit then Some acc else None
  | c :: s' =>
      if c =? 95 then
        if after_digit then int_digits s' acc false else None
      else
        match to_decimal c with
        | Some d => int_digits s' (10 * acc + d) true
        | None => None
        end
  end.

(** [int(x)] for [x] a string or [None]: blanks around, an optional
    sign, decimal digits. *)
Definition int (x : option str) : result Z :=
  match x with
  | None => inl TypeError
  | Some s =>
      let t := strip s in
      let '(sign, body) :=
        match t with
        | c :: r =>
            if c =? 43 then (1, r)
            else if c =? 45 then (-1, r)
            else (1, t)
        | [] => (1, t)
        end in
      match int_digits body 0 false with
      | Some n => inr (sign * n)
      | None => inl ValueError
      end
  end.

(** [x in units] for [x] a string or [None] *)
Definition in_list (x : option str) (l : list str) : bool :=
  match x with
  | Some u => member u l
  | None => false
  end.

(** Lines 103-111: the budget signal.
<<
    budget = None
    m = re.search(r"(\d{2,3})\s?(k|mil|000|k\s?mxn|mxn)", text)
    if m:
        try:
            num = int(m.group(1))
            budget = num * (1000 if m.group(2) in [...] else 1)
        except Exception:
            budget = None
>> *)
Definition budget_of_match (m : Re.Match) : option Z :=
  match int (Re.group m 1) with
  | inr num =>
      Some (num * (if in_list (Re.group m 2)
                        [py "k"; py "mil"; py "k mxn"; py "mxn"]
                   then 1000 else 1))
  | inl _ => None
  end.

Definition extract_budget (text : str) : option Z :=
  match Re.search budget_pattern text with
  | Some m => budget_of_match m
  | None => None
  end.

End Builtins.

(** ** The pydantic models *)

Inductive Badge :=
| Conservadora | Balance | Riesgo_alto | Exploratoria | Precisa | Eficiente.

Record AnalyzeRequest := { prompt : str }.

Record Recommendation := {
  id : str;
  title : str;
  summary : str;
  bullets : list str;
  badge : Badge;
  recommended : bool
}.

Inductive Status := analyzing | ready.

(** The [metadata] dictionary: its two keys. *)
Record Metadata := { received_at : str; length_ : nat }.

Record AnalyzeResponse := {
  robot_message : str;
  status : Status;
  recommendations : list Recommendation;
  decision_id : option str;
  metadata : Metadata
}.

(** The dictionary handed to [create_document]. *)
Record Payload := {
  p_prompt : str;
  p_robot_message : str;
  p_recommendations : list Recommendation;
  p_metadata : Metadata;
  p_type : str
}.

(** ** State: the object store and the document vault

    [Recommendation] instances are mutable objects: the generator builds
    them and then assigns to their [recommended] attribute.  They live
    in a store and are passed around by reference.  [vault] records the
    calls made to [create_document]. *)
Abbreviation ref := nat (only parsing).

Record world := {
  heap : list Recommendation;
  vault : list (str * Payload)
}.

Definition M (A : Type) : Type := world -> result A * world.

#[export] Instance M_ret : MRet M := fun A a w => (inr a, w).

#[export] Instance M_bind : MBind M := fun A B f m w =>
  match m w with
  | (inr a, w') => f a w'
  | (inl e, w') => (inl e, w')
  end.

Definition raise {A} (e : exn) : M A := fun w => (inl e, w).

(** [try: body except Exception: handler] *)
Definition try_except {A} (body : M A) (handler : exn -> M A) : M A :=
  fun w =>
    match body w with
    | (inl e, w') => handler e w'
    | (inr a, w') => (inr a, w')
    end.

(** [Recommendation(...)]: a fresh object *)
Definition new_Recommendation (r : Recommendation) : M ref :=
  fun w => (inr (length (heap w)),
            {| heap := heap w ++ [r]; vault := vault w |}).

(** [l[i]] *)
Definition getitem {A} (l : list A) (i : nat) : M A :=
  match l !! i with
  | Some x => mret x
  | None => raise IndexError
  end.

Definition set_recommended_of (b : bool) (r : Recommendation) : Recommendation :=
  {| id := id r; title := title r; summary := summary r;
     bullets := bullets r; badge := badge r; recommended := b |}.

(** [o.recommended = b] *)
Definition set_recommended (o : ref) (b : bool) : M unit :=
  fun w =>
    match heap w !! o with
    | Some r => (inr tt, {| heap := <[o := set_recommended_of b r]> (heap w);
                            vault := vault w |})
    | None => (inl SystemError, w)
    end.

(** [o.model_dump()]: the fields of the object as they are now *)
Definition model_dump (o : ref) : M Recommendation :=
  fun w =>
    match heap w !! o with
    | Some r => (inr r, w)
    | None => (inl SystemError, w)
    end.

(** [[f(x) for x in l]] *)
Fixpoint for_each {A B} (f : A -> M B) (l : list A) : M (list B) :=
  match l with
  | [] => mret []
  | x :: l' => y ← f x; ys ← for_each f l'; mret (y :: ys)
  end.

(** ** [_generate_recommendations] *)

Section Generator.
Context `{Unicode}.

Definition portabilidad_keywords : list str :=
  [py "peso"; py "liger"; py "portátil"; py "portatil"].
Definition rendimiento_keywords : list str :=
  [py "render"; py "3d"; py "lumion"; py "blender"; py "revit";
   py "potencia"; py "gpu"].
Definition confianza_keywords : list str :=
  [py "durabil"; py "garant"; py "soporte"; py "confi"].
Definition ruido_keywords : list str := [py "silenc"; py "ruido"].

(** Lines 113-121: the list [priorities]. *)
Definition detect_priorities (text : str) : list str :=
  let priorities := [] in
  let priorities :=
    if any_in portabilidad_keywords text
    then priorities ++ [py "portabilidad"] else priorities in
  let priorities :=
    if any_in rendimiento_keywords text
    then priorities ++ [py "rendimiento"] else priorities in
  let priorities :=
    if any_in confianza_keywords text
    then priorities ++ [py "confianza"] else priorities in
  let priorities :=
    if any_in ruido_keywords text
    then priorities ++ [py "ruido"] else priorities in
  priorities.

(** The second bullet of the balance route:
    ["..." + (f" (≤ {budget:,} MXN)" if budget else ".")];
    [None] and [0] are both false. *)
Definition budget_bullet (budget : option Z) : str :=
  py "Mantiene el presupuesto bajo control"
  ++ (match budget with
      | Some b =>
          if b =? 0 then py "."
          else py " (≤ " ++ Format.thousands b ++ py " MXN)"
      | None => py "."
      end).

Definition balance_record (budget : option Z) : Recommendation :=
  {| id := py "route_balance";
     title := py "Ruta A – Equilibrio rendimiento / precio";
     summary := py "Balancea potencia suficiente con cuidado del presupuesto.";
     bullets :=
       [py "Prioriza GPU y RAM sobre detalles cosméticos.";
        budget_bullet budget;
        py "Acepta un peso medio para no sacrificar demasiada potencia.";
        py "Propone marcas con buen soporte técnico para minimizar riesgos."];
     badge := Balance;
     recommended := true |}.

Definition power_record : Recommendation :=
  {| id := py "route_power";
     title := py "Ruta B – Máxima potencia para cargas pesadas";
     summary := py "Prioriza rendimiento sostenido para 3D y render, asumiendo trade-offs.";
     bullets :=
       [py "Maximiza GPU/CPU y memoria para proyectos exigentes.";
        py "Puede exceder un poco el presupuesto si el beneficio es claro.";
        py "Acepta mayor peso y menor batería para ganar velocidad.";
        py "Sugiere sistemas de enfriamiento más robustos (algo más de ruido)."];
     badge := Riesgo_alto;
     recommended := false |}.

Definition portability_record : Recommendation :=
  {| id := py "route_portability";
     title := py "Ruta C – Ultra ligera, consciente del sacrificio";
     summary := py "Optimiza portabilidad y ergonomía, sacrificando potencia tope.";
     bullets :=
       [py "Elige chasis delgados y materiales ligeros.";
        py "Rinde bien en tareas de diseño medio; renderizados más lentos.";
        py "Se enfoca en autonomía y menor ruido cuando es posible.";
        py "Se asegura de que el peso total sea cómodo para transporte diario."];
     badge := Conservadora;
     recommended := false |}.

(** Lines 95-177.  The result is the list [recs] of references to the
    three objects built by the call. *)
Definition _generate_recommendations (prompt : str) : M (list ref) :=
  let text := lower prompt in
  let budget := extract_budget text in
  let priorities := detect_priorities text in
  let recs : list ref := [] in
  o ← new_Recommendation (balance_record budget);
  let recs := recs ++ [o] in
  o ← new_Recommendation power_record;
  let recs := recs ++ [o] in
  o ← new_Recommendation portability_record;
  let recs := recs ++ [o] in
  (if member (py "portabilidad") priorities then
     o ← getitem recs 0; set_recommended o false;;
     o ← getitem recs 2; set_recommended o true
   else mret tt);;
  (if member (py "rendimiento") priorities then
     o ← getitem recs 0; set_recommended o false;;
     o ← getitem recs 1; set_recommended o true
   else mret tt);;
  mret recs.

(** What a caller reads off the returned list, the way
    [analyze_decision] does it with [model_dump]. *)
Definition generated_records (prompt : str) : M (list Recommendation) :=
  recs ← _generate_recommendations prompt;
  for_each model_dump recs.

End Generator.

(** ** The persistence collaborator

    The module [database] is not part of the source file: the handler
    imports it inside a [try].  Either the import fails, or it provides
    [create_document(collection, payload)], which returns an identifier
    (or [None]) or raises an instance of [Exception].  It is taken by
    this contract: it reads the payload and does not alter it, and what
    it returns is text or [None], as the field
    [decision_id: Optional[str]] of the response requires. *)
Inductive database :=
| NoDatabase
| Database (create_document : str -> Payload -> result (option str)).

(** [from database import create_document] *)
Definition import_create_document (db : database)
    : M (str -> Payload -> M (option str)) :=
  match db with
  | NoDatabase => raise ImportError
  | Database f =>
      mret (fun collection payload w =>
              (f collection payload,
               {| heap := heap w;
                  vault := vault w ++ [(collection, payload)] |}))
  end.

(** ** [analyze_decision] *)

Section Handler.
Context `{Unicode}.

Definition guidance : str :=
  py "La descripción es muy corta. Agrega propósito, presupuesto y prioridades.".

Definition the_robot_message : str :=
  py "Entiendo tu objetivo y voy a priorizar lo que más te importa. "
  ++ py "Aquí tienes 2–3 rutas de decisión con sus trade-offs. "
  ++ py "¿Prefieres optimizar portabilidad, rendimiento puro o un balance claro?".

(** Lines 181-222.  [now] is the value of
    [datetime.now(timezone.utc).isoformat()] at the call. *)
Definition analyze_decision (db : database) (now : str)
    (req : AnalyzeRequest) : M AnalyzeResponse :=
  if negb (truthy (prompt req))
     || (length (strip (prompt req)) <? 15)%nat
  then raise (HTTPException 400 guidance)
  else
    recs ← _generate_recommendations (prompt req);
    let robot_message := the_robot_message in
    let metadata :=
      {| received_at := now; length_ := length (prompt req) |} in
    decision_id ←
      try_except
        (create_document ← import_create_document db;
         dumped ← for_each model_dump recs;
         let payload :=
           {| p_prompt := prompt req;
              p_robot_message := robot_message;
              p_recommendations := dumped;
              p_metadata := metadata;
              p_type := py "decision_route" |} in
         create_document (py "decisionroute") payload)
        (fun _ => mret None);
    body ← for_each model_dump recs;
    mret {| robot_message := robot_message;
            status := ready;
            recommendations := body;
            decision_id := decision_id;
            metadata := metadata |}.

(** ** The route [POST /api/decision/analyze]

    The body is a JSON object whose [prompt] is a string.  FastAPI
    builds the [AnalyzeRequest] from it before it calls the handler.
    The field [prompt] is a constrained string ([min_length=15]): the
    model's validation first needs the text as UTF-8, which a string
    holding a lone surrogate (the JSON escape of one half of a pair)
    has not, and then counts its characters.  In both cases the handler
    is not called.

    What the route answers is sent as UTF-8 JSON.  The validation error
    echoes the prompt, and the response carries two strings that are no
    literals of the source, the clock text and the identifier that
    [create_document] returned: when one of them holds a lone surrogate
    the encoding fails and the answer is a server error. *)
Definition is_surrogate (c : Z) : bool := (0xD800 <=? c) && (c <=? 0xDFFF).

Definition encodable (s : str) : bool := negb (existsb is_surrogate s).

Inductive validation_error := string_unicode | string_too_short.

Inductive reply :=
| RequestValidationError
| Raised (e : exn)
| Returned (r : AnalyzeResponse)
| EncodingError.

Definition validate_AnalyzeRequest (body_prompt : str)
    : validation_error + AnalyzeRequest :=
  if negb (encodable body_prompt) then inl string_unicode
  else if (length body_prompt <? 15)%nat then inl string_too_short
  else inr {| prompt := body_prompt |}.

Definition response_encodable (r : AnalyzeResponse) : bool :=
  encodable (received_at (metadata r))
  && match decision_id r with
     | Some i => encodable i
     | None => true
     end.

Definition post_analyze (db : database) (now : str) (body_prompt : str)
    (w : world) : reply * world :=
  match validate_AnalyzeRequest body_prompt with
  | inl string_unicode => (EncodingError, w)
  | inl string_too_short => (RequestValidationError, w)
  | inr req =>
      match analyze_decision db now req w with
      | (inl e, w') => (Raised e, w')
      | (inr r, w') =>
          if response_encodable r then (Returned r, w')
          else (EncodingError, w')
      end
  end.

(** The status code FastAPI answers with. *)
Definition status_code_of (r : reply) : Z :=
  match r with
  | RequestValidationError => 422
  | Raised (HTTPException code _) => code
  | Raised _ => 500
  | Returned _ => 200
  | EncodingError => 500
  end.

End Handler.

(** ** The static routes [GET /] and [GET /api/hello] *)

Definition read_root : list (str * str) :=
  [(py "message", py "Hello from FastAPI Backend!")].

Definition hello : list (str * str) :=
  [(py "message", py "Hello from the backend API!")].

(** ** [test_database]

    The probe imports [db] from the module [database], which is not
    part of the source file.  The import raises [ImportError], raises
    something else, or gives [db], which may be [None].  Of a [db] the
    probe reads the attribute [name], when there is one, and calls
    [list_collection_names()], which returns a list or raises; of an
    exception [e] it uses [str(e)] only. *)
Record Db := {
  db_name : option str;
  list_collection_names : str + list str
}.

Inductive db_import :=
| ModuleNotFound
| ImportRaised (message : str)
| Imported (db : option Db).

(** The dictionary [response]: its six keys. *)
Record Probe := {
  t_backend : str;
  t_database : str;
  t_database_url : option str;
  t_database_name : option str;
  t_connection_status : str;
  t_collections : list str
}.

Definition set_database (v : str) (r : Probe) : Probe :=
  {| t_backend := t_backend r; t_database := v;
     t_database_url := t_database_url r;
     t_database_name := t_database_name r;
     t_connection_status := t_connection_status r;
     t_collections := t_collections r |}.

Definition set_database_url (v : option str) (r : Probe) : Probe :=
  {| t_backend := t_backend r; t_database := t_database r;
     t_database_url := v;
     t_database_name := t_database_name r;
     t_connection_status := t_connection_status r;
     t_collections := t_collections r |}.

Definition set_database_name (v : option str) (r : Probe) : Probe :=
  {| t_backend := t_backend r; t_database := t_database r;
     t_database_url := t_database_url r;
     t_database_name := v;
     t_connection_status := t_connection_status r;
     t_collections := t_collections r |}.

Definition set_connection_status (v : str) (r : Probe) : Probe :=
  {| t_backend := t_backend r; t_database := t_database r;
     t_database_url := t_database_url r;
     t_database_name := t_database_name r;
     t_connection_status := v;
     t_collections := t_collections r |}.

Definition set_collections (v : list str) (r : Probe) : Probe :=
  {| t_backend := t_backend r; t_database := t_database r;
     t_database_url := t_database_url r;
     t_database_name := t_database_name r;
     t_connection_status := t_connection_status r;
     t_collections := v |}.

(** The truth value of [os.getenv(name)]: false for an unset and for an
    empty variable. *)
Definition env_set (getenv : str -> option str) (name : str) : bool :=
  match getenv name with
  | Some v => truthy v
  | None => false
  end.

(** Lines 50-92. *)
Definition test_database (imported : db_import)
    (getenv : str -> option str) : Probe :=
  let response :=
    {| t_backend := py "✅ Running";
       t_database := py "❌ Not Available";
       t_database_url := None;
       t_database_name := None;
       t_connection_status := py "Not Connected";
       t_collections := [] |} in
  let response :=
    match imported with
    | Imported (Some db) =>
        let response := set_database (py "✅ Available") response in
        let response :=
          set_database_url (Some (py "✅ Configured")) response in
        let response :=
          set_database_name
            (Some (match db_name db with
                   | Some n => n
                   | None => py "✅ Connected"
                   end)) response in
        let response := set_connection_status (py "Connected") response in
        match list_collection_names db with
        | inr collections =>
            let response := set_collections (take 10 collections) response in
            set_database (py "✅ Connected & Working") response
        | inl e =>
            set_database
              (py "⚠️  Connected but Error: " ++ take 50 e) response
        end
    | Imported None =>
        set_database (py "⚠️  Available but not initialized") response
    | ModuleNotFound =>
        set_database
          (py "❌ Database module not found (run enable-database first)")
          response
    | ImportRaised e =>
        set_database (py "❌ Error: " ++ take 50 e) response
    end in
  let response :=
    set_database_url
      (Some (if env_set getenv (py "DATABASE_URL")
             then py "✅ Set" else py "❌ Not Set")) response in
  let response :=
    set_database_name
      (Some (if env_set getenv (py "DATABASE_NAME")
             then py "✅ Set" else py "❌ Not Set")) response in
  response.

(** ** Text of Latin-1 range

    An instance of the character database that is exact on code points
    up to U+00FF: there [str.lower] maps [A-Z] and the capitals
    U+00C0..U+00DE (not the sign U+00D7) to the letter 32 places on, and
    the decimal digits are [0-9].  It is used to run the definitions on
    concrete prompts. *)
Module Latin1.

Definition lower_char (c : Z) : Z :=
  if ((65 <=? c) && (c <=? 90))
     || ((0xC0 <=? c) && (c <=? 0xDE) && negb (c =? 0xD7))
  then c + 32 else c.

Definition decimal (c : Z) : option Z :=
  if (48 <=? c) && (c <=? 57) then Some (c - 48) else None.

Lemma decimal_is_plain c d :
  decimal c = Some d -> isspace c = false /\ c <> 43 /\ c <> 45 /\ c <> 95.
Proof.
  unfold decimal, isspace. intros Hd.
  destruct (48 <=? c) eqn:H1, (c <=? 57) eqn:H2; simpl in Hd; try discriminate.
  repeat split; lia.
Qed.

#[export] Instance unicode : Unicode :=
  {| lower := map lower_char; to_decimal := decimal;
     decimal_plain := decimal_is_plain |}.

End Latin1.


(** * Properties *)

Arguments py : simpl never.

(** ** The object store *)

Section Store.

Variables (h : list Recommendation) (v : list (str * Payload)).
Variables x y z : Recommendation.

Lemma lookup_0 : (h ++ [x; y; z]) !! length h = Some x.
Proof. by rewrite lookup_app_r, Nat.sub_diag by lia. Qed.

Lemma lookup_1 : (h ++ [x; y; z]) !! S (length h) = Some y.
Proof.
  rewrite lookup_app_r by lia.
  by replace (S (length h) - length h)%nat with 1%nat by lia.
Qed.

Lemma lookup_2 : (h ++ [x; y; z]) !! S (S (length h)) = Some z.
Proof.
  rewrite lookup_app_r by lia.
  by replace (S (S (length h)) - length h)%nat with 2%nat by lia.
Qed.

Lemma set_recommended_0 b :
  set_recommended (length h) b {| heap := h ++ [x; y; z]; vault := v |}
  = (inr tt, {| heap := h ++ [set_recommended_of b x; y; z]; vault := v |}).
Proof.
  unfold set_recommended; simpl. rewrite lookup_0.
  by rewrite insert_app_r_alt, Nat.sub_diag by lia.
Qed.

Lemma set_recommended_1 b :
  set_recommended (S (length h)) b {| heap := h ++ [x; y; z]; vault := v |}
  = (inr tt, {| heap := h ++ [x; set_recommended_of b y; z]; vault := v |}).
Proof.
  unfold set_recommended; simpl. rewrite lookup_1.
  rewrite insert_app_r_alt by lia.
  by replace (S (length h) - length h)%nat with 1%nat by lia.
Qed.

Lemma set_recommended_2 b :
  set_recommended (S (S (length h))) b {| heap := h ++ [x; y; z]; vault := v |}
  = (inr tt, {| heap := h ++ [x; y; set_recommended_of b z]; vault := v |}).
Proof.
  unfold set_recommended; simpl. rewrite lookup_2.
  rewrite insert_app_r_alt by lia.
  by replace (S (S (length h)) - length h)%nat with 2%nat by lia.
Qed.

(** Reading the three objects back, whatever was allocated after
    them. *)
Lemma dump_three (later : list Recommendation) :
  for_each model_dump [length h; S (length h); S (S (length h))]
    {| heap := (h ++ [x; y; z]) ++ later; vault := v |}
  = (inr [x; y; z], {| heap := (h ++ [x; y; z]) ++ later; vault := v |}).
Proof.
  assert (L0 : ((h ++ [x; y; z]) ++ later) !! length h = Some x).
  { rewrite lookup_app_l by (rewrite length_app; simpl; lia).
    apply lookup_0. }
  assert (L1 : ((h ++ [x; y; z]) ++ later) !! S (length h) = Some y).
  { rewrite lookup_app_l by (rewrite length_app; simpl; lia).
    apply lookup_1. }
  assert (L2 : ((h ++ [x; y; z]) ++ later) !! S (S (length h)) = Some z).
  { rewrite lookup_app_l by (rewrite length_app; simpl; lia).
    apply lookup_2. }
  unfold for_each, model_dump, mbind, M_bind, mret, M_ret; simpl.
  rewrite L0; simpl. rewrite L1; simpl. by rewrite L2.
Qed.

End Store.

(** ** The generator, run on any store *)

Section GeneratorFacts.
Context `{Unicode}.

Lemma member_portabilidad text :
  member (py "portabilidad") (detect_priorities text)
  = any_in portabilidad_keywords text.
Proof.
  unfold detect_priorities.
  destruct (any_in portabilidad_keywords text),
    (any_in rendimiento_keywords text),
    (any_in confianza_keywords text),
    (any_in ruido_keywords text); vm_compute; reflexivity.
Qed.

Lemma member_rendimiento text :
  member (py "rendimiento") (detect_priorities text)
  = any_in rendimiento_keywords text.
Proof.
  unfold detect_priorities.
  destruct (any_in portabilidad_keywords text),
    (any_in rendimiento_keywords text),
    (any_in confianza_keywords text),
    (any_in ruido_keywords text); vm_compute; reflexivity.
Qed.

Lemma set_recommended_of_same r : set_recommended_of (recommended r) r = r.
Proof. by destruct r. Qed.

Lemma set_recommended_of_twice b c r :
  set_recommended_of b (set_recommended_of c r) = set_recommended_of b r.
Proof. reflexivity. Qed.

Lemma balance_flagged budget :
  set_recommended_of true (balance_record budget) = balance_record budget.
Proof. exact (set_recommended_of_same (balance_record budget)). Qed.

Lemma power_unflagged : set_recommended_of false power_record = power_record.
Proof. exact (set_recommended_of_same power_record). Qed.

Lemma portability_unflagged :
  set_recommended_of false portability_record = portability_record.
Proof. exact (set_recommended_of_same portability_record). Qed.

Lemma three_allocations (h : list Recommendation) a b c :
  ((h ++ [a]) ++ [b]) ++ [c] = h ++ [a; b; c].
Proof. by rewrite <- !app_assoc. Qed.

(** The call allocates three objects after those already in the store
    and returns their references in the order of allocation. *)
Lemma generate_run prompt w :
  let text := lower prompt in
  let port := any_in portabilidad_keywords text in
  let rend := any_in rendimiento_keywords text in
  _generate_recommendations prompt w
  = (inr [length (heap w); S (length (heap w)); S (S (length (heap w)))],
     {| heap := heap w
                ++ [set_recommended_of (negb port && negb rend)
                      (balance_record (extract_budget text));
                    set_recommended_of rend power_record;
                    set_recommended_of port portability_record];
        vault := vault w |}).
Proof.
  intros text port rend. unfold _generate_recommendations.
  rewrite member_portabilidad, member_rendimiento.
  fold text port rend.
  unfold mbind, M_bind, new_Recommendation; simpl.
  rewrite !length_app; simpl.
  replace (length (heap w) + 1 + 1)%nat with (S (S (length (heap w)))) by lia.
  replace (length (heap w) + 1)%nat with (S (length (heap w))) by lia.
  rewrite three_allocations.
  destruct port, rend; simpl.
  all: unfold getitem; simpl.
  all: repeat (rewrite ?set_recommended_0, ?set_recommended_1,
                 ?set_recommended_2; simpl).
  all: rewrite ?set_recommended_of_twice, ?balance_flagged,
         ?power_unflagged, ?portability_unflagged.
  all: reflexivity.
Qed.

Lemma generated_run prompt w :
  let text := lower prompt in
  let port := any_in portabilidad_keywords text in
  let rend := any_in rendimiento_keywords text in
  let rs := [set_recommended_of (negb port && negb rend)
               (balance_record (extract_budget text));
             set_recommended_of rend power_record;
             set_recommended_of port portability_record] in
  generated_records prompt w
  = (inr rs, {| heap := heap w ++ rs; vault := vault w |}).
Proof.
  intros text port rend rs. unfold generated_records.
  unfold mbind, M_bind. rewrite generate_run. fold text port rend rs.
  pose proof (dump_three (heap w) (vault w)
                (set_recommended_of (negb port && negb rend)
                   (balance_record (extract_budget text)))
                (set_recommended_of rend power_record)
                (set_recommended_of port portability_record) []) as D.
  rewrite app_nil_r in D. exact D.
Qed.

End GeneratorFacts.

(** ** The matcher *)

Section MatcherFacts.
Context `{Unicode}.

Lemma strip_prefix_Some p s s' : strip_prefix p s = Some s' -> s = p ++ s'.
Proof.
  revert s; induction p as [|a p IH]; intros [|b s]; simpl; try congruence.
  destruct (Z.eqb_spec a b); [|discriminate].
  intros E. subst b. f_equal. by apply IH.
Qed.

Lemma take_consumed (p s' : str) :
  take (length (p ++ s') - length s')%nat (p ++ s') = p.
Proof.
  rewrite length_app.
  replace (length p + length s' - length s')%nat with (length p) by lia.
  apply take_app_length.
Qed.

(** Whatever the matcher returns was handed to the continuation after
    one of the readings of the pattern. *)
Lemma matchr_sound {R} (r : Re.regex) :
  forall s g (k : str -> Re.groups -> option R) x,
    Re.matchr r s g k = Some x ->
    exists p s' g', s = p ++ s' /\ Re.denotes r p g g' /\ k s' g' = Some x.
Proof.
  induction r as [l| | |r1 IH1 r2 IH2|r1 IH1 r2 IH2|r1 IH1|lo hi r1 IH1|n r1 IH1];
    intros s g k x E; simpl in E.
  - destruct (strip_prefix l s) as [s'|] eqn:P; [|discriminate].
    apply strip_prefix_Some in P. exists l, s', g. by simpl.
  - destruct s as [|c s']; [discriminate|].
    destruct (to_decimal c) as [d|] eqn:D; [|discriminate].
    exists [c], s', g. simpl. eauto 10.
  - destruct s as [|c s']; [discriminate|].
    destruct (isspace c) eqn:D; [|discriminate].
    exists [c], s', g. simpl. eauto 10.
  - apply IH1 in E as (p1 & s1 & g1 & -> & D1 & E).
    apply IH2 in E as (p2 & s2 & g2 & -> & D2 & E).
    exists (p1 ++ p2), s2, g2. rewrite <- app_assoc. simpl. eauto 10.
  - destruct (Re.matchr r1 s g k) as [y|] eqn:E1.
    + apply IH1 in E1 as (p & s' & g' & -> & D & K).
      exists p, s', g'. simpl. split; [done|]. split; [by left|congruence].
    + apply IH2 in E as (p & s' & g' & -> & D & K).
      exists p, s', g'. simpl. eauto.
  - destruct (Re.matchr r1 s g k) as [y|] eqn:E1.
    + apply IH1 in E1 as (p & s' & g' & -> & D & K).
      exists p, s', g'. simpl. split; [done|]. split; [by left|congruence].
    + exists [], s, g. simpl. eauto.
  - revert lo s g k x E. induction hi as [|hi IHhi]; intros lo s g k x E.
    + destruct lo; [|discriminate]. exists [], s, g. simpl. eauto.
    + match type of E with
      | match ?m with _ => _ end = _ => destruct m as [y|] eqn:E1
      end.
      * apply IH1 in E1 as (p1 & s1 & g1 & -> & D1 & K).
        apply IHhi in K as (p2 & s2 & g2 & -> & D2 & K).
        exists (p1 ++ p2), s2, g2. rewrite <- app_assoc.
        split; [done|]. split; [|congruence].
        simpl. left. exists p1, p2, g1. eauto.
      * destruct lo; [|discriminate]. exists [], s, g.
        split; [done|]. split; [simpl; by right|done].
  - apply IH1 in E as (p & s' & g' & -> & D & K).
    rewrite take_consumed in K.
    exists p, s', ((n, p) :: g'). simpl. eauto.
Qed.

(** [re.search] returns a match found at some position of the text. *)
Lemma search_here r s m :
  Re.search r s = Some m ->
  exists before at_, s = before ++ at_ /\ Re.match_here r at_ = Some m.
Proof.
  induction s as [|c s IH]; simpl.
  - destruct (Re.match_here r []) as [m'|] eqn:E; [|discriminate].
    intros [= <-]. by exists [], [].
  - destruct (Re.match_here r (c :: s)) as [m'|] eqn:E.
    + intros [= <-]. by exists [], (c :: s).
    + intros (b & a & -> & E')%IH. by exists (c :: b), a.
Qed.

End MatcherFacts.

(** ** The budget pattern *)

Section BudgetFacts.
Context `{Unicode}.

Lemma budget_pattern_eq :
  budget_pattern
  = Re.Seq (Re.Group 1 (Re.Rep 2 3 Re.Digit))
      (Re.Seq (Re.Opt Re.Space)
         (Re.Group 2
            (Re.Alt (Re.Lit [107])
               (Re.Alt (Re.Lit [109; 105; 108])
                  (Re.Alt (Re.Lit [48; 48; 48])
                     (Re.Alt
                        (Re.Seq (Re.Lit [107])
                           (Re.Seq (Re.Opt Re.Space) (Re.Lit [109; 120; 110])))
                        (Re.Lit [109; 120; 110]))))))).
Proof. reflexivity. Qed.

Lemma matchr_Seq {R} r1 r2 s g (k : str -> Re.groups -> option R) :
  Re.matchr (Re.Seq r1 r2) s g k
  = Re.matchr r1 s g (fun s' g' => Re.matchr r2 s' g' k).
Proof. reflexivity. Qed.

(** The unit group, followed by nothing that can fail: the first
    alternative that matches is the one taken, so a text that starts
    with [k] is matched by the alternative [k], never by [k\s?mxn]. *)
Lemma unit_choice {R} (F : str -> Re.groups -> R) s g x :
  Re.matchr
    (Re.Group 2
       (Re.Alt (Re.Lit [107])
          (Re.Alt (Re.Lit [109; 105; 108])
             (Re.Alt (Re.Lit [48; 48; 48])
                (Re.Alt
                   (Re.Seq (Re.Lit [107])
                      (Re.Seq (Re.Opt Re.Space) (Re.Lit [109; 120; 110])))
                   (Re.Lit [109; 120; 110]))))))
    s g (fun s' g' => Some (F s' g')) = Some x ->
  exists u s',
    s = u ++ s' /\ x = F s' ((2%nat, u) :: g)
    /\ (u = [107] \/ u = [109; 105; 108] \/ u = [48; 48; 48]
        \/ u = [109; 120; 110]).
Proof.
  cbn [Re.matchr].
  destruct (strip_prefix [107] s) as [s1|] eqn:P1.
  { apply strip_prefix_Some in P1 as ->. rewrite take_consumed.
    intros [= <-]. exists [107], s1. tauto. }
  destruct (strip_prefix [109; 105; 108] s) as [s1|] eqn:P2.
  { apply strip_prefix_Some in P2 as ->. rewrite take_consumed.
    intros [= <-]. exists [109; 105; 108], s1. tauto. }
  destruct (strip_prefix [48; 48; 48] s) as [s1|] eqn:P3.
  { apply strip_prefix_Some in P3 as ->. rewrite take_consumed.
    intros [= <-]. exists [48; 48; 48], s1. tauto. }
  destruct (strip_prefix [109; 120; 110] s) as [s1|] eqn:P4; [|discriminate].
  apply strip_prefix_Some in P4 as ->. rewrite take_consumed.
  intros [= <-]. exists [109; 120; 110], s1. tauto.
Qed.

Lemma digits_group p g g1 :
  Re.denotes (Re.Group 1 (Re.Rep 2 3 Re.Digit)) p g g1 ->
  g1 = (1%nat, p) :: g
  /\ ((exists c1 c2 d1 d2,
         p = [c1; c2] /\ to_decimal c1 = Some d1 /\ to_decimal c2 = Some d2)
      \/ (exists c1 c2 c3 d1 d2 d3,
            p = [c1; c2; c3] /\ to_decimal c1 = Some d1
            /\ to_decimal c2 = Some d2 /\ to_decimal c3 = Some d3)).
Proof.
  simpl. intros (g0 & D & ->).
  destruct D as [(p1 & q1 & h1 & -> & (c1 & d1 & -> & D1 & ->) & D)|(? & _)];
    [|discriminate].
  destruct D as [(p2 & q2 & h2 & -> & (c2 & d2 & -> & D2 & ->) & D)|(? & _)];
    [|discriminate].
  destruct D as [(p3 & q3 & h3 & -> & (c3 & d3 & -> & D3 & ->) & D)|(_ & -> & ->)].
  - destruct D as (_ & -> & ->). split; [done|]. right.
    exists c1, c2, c3, d1, d2, d3. by simpl.
  - split; [done|]. left. exists c1, c2, d1, d2. by simpl.
Qed.

Lemma int_two_digits c1 c2 d1 d2 :
  to_decimal c1 = Some d1 -> to_decimal c2 = Some d2 ->
  int (Some [c1; c2]) = inr (10 * d1 + d2).
Proof.
  intros D1 D2.
  destruct (decimal_plain _ _ D1) as (S1 & P1 & M1 & U1).
  destruct (decimal_plain _ _ D2) as (S2 & P2 & M2 & U2).
  unfold int, strip, rstrip. simpl. rewrite S1. simpl. rewrite S2. simpl.
  rewrite (proj2 (Z.eqb_neq c1 43)), (proj2 (Z.eqb_neq c1 45)) by done.
  simpl.
  rewrite (proj2 (Z.eqb_neq c1 95)), (proj2 (Z.eqb_neq c2 95)), D1, D2 by done.
  f_equal. lia.
Qed.

Lemma int_three_digits c1 c2 c3 d1 d2 d3 :
  to_decimal c1 = Some d1 -> to_decimal c2 = Some d2 ->
  to_decimal c3 = Some d3 ->
  int (Some [c1; c2; c3]) = inr (100 * d1 + 10 * d2 + d3).
Proof.
  intros D1 D2 D3.
  destruct (decimal_plain _ _ D1) as (S1 & P1 & M1 & U1).
  destruct (decimal_plain _ _ D2) as (S2 & P2 & M2 & U2).
  destruct (decimal_plain _ _ D3) as (S3 & P3 & M3 & U3).
  unfold int, strip, rstrip. simpl. rewrite S1. simpl. rewrite S3. simpl.
  rewrite (proj2 (Z.eqb_neq c1 43)), (proj2 (Z.eqb_neq c1 45)) by done.
  simpl.
  rewrite (proj2 (Z.eqb_neq c1 95)), (proj2 (Z.eqb_neq c2 95)),
    (proj2 (Z.eqb_neq c3 95)), D1, D2, D3 by done.
  f_equal. lia.
Qed.

(** A match of the budget pattern: group 1 holds two or three decimal
    digits, which [int] converts, and group 2 one of the four units
    [k], [mil], [000], [mxn]. *)
Lemma budget_match_here s m :
  Re.match_here budget_pattern s = Some m ->
  exists ds u num,
    Re.captured m = [(2%nat, u); (1%nat, ds)]
    /\ int (Some ds) = inr num
    /\ (u = [107] \/ u = [109; 105; 108] \/ u = [48; 48; 48]
        \/ u = [109; 120; 110]).
Proof.
  unfold Re.match_here. rewrite budget_pattern_eq, matchr_Seq. intros E.
  apply matchr_sound in E as (p1 & s1 & g1 & -> & D1 & E).
  apply digits_group in D1 as (-> & Dg).
  rewrite matchr_Seq in E.
  apply matchr_sound in E as (p2 & s2 & g2 & -> & D2 & E).
  assert (g2 = [(1%nat, p1)]) as ->.
  { simpl in D2. destruct D2 as [(c & _ & _ & ->)|(_ & ->)]; done. }
  apply unit_choice in E as (u & s3 & -> & -> & Hu).
  destruct Dg as [(c1 & c2 & d1 & d2 & -> & E1 & E2)
                 |(c1 & c2 & c3 & d1 & d2 & d3 & -> & E1 & E2 & E3)].
  - exists [c1; c2], u, (10 * d1 + d2). simpl.
    split; [done|]. split; [by apply int_two_digits|done].
  - exists [c1; c2; c3], u, (100 * d1 + 10 * d2 + d3). simpl.
    split; [done|]. split; [by apply int_three_digits|done].
Qed.

End BudgetFacts.

(** ** Substrings *)

Section SubstringFacts.

Lemma strip_prefix_of_app p s : strip_prefix p (p ++ s) = Some s.
Proof. induction p as [|a p IH]; simpl; [done|]. by rewrite Z.eqb_refl. Qed.

Lemma contains_unfold k text :
  contains k text
  = match strip_prefix k text with
    | Some _ => true
    | None => match text with
              | [] => false
              | _ :: text' => contains k text'
              end
    end.
Proof. by destruct text. Qed.

(** [k in text] is true exactly when [k] occurs in [text]. *)
Lemma contains_spec k text :
  contains k text = true <-> exists a b, text = a ++ k ++ b.
Proof.
  split.
  - induction text as [|c t IH]; rewrite contains_unfold.
    + destruct (strip_prefix k []) as [s'|] eqn:P; [|discriminate].
      intros _. apply strip_prefix_Some in P. by exists [], s'.
    + destruct (strip_prefix k (c :: t)) as [s'|] eqn:P.
      * intros _. apply strip_prefix_Some in P. by exists [], s'.
      * intros (a & b & ->)%IH. by exists (c :: a), b.
  - intros (a & b & ->). induction a as [|c a IH]; rewrite contains_unfold.
    + simpl. by rewrite strip_prefix_of_app.
    + change ((c :: a) ++ k ++ b) with (c :: (a ++ k ++ b)).
      cbv iota. rewrite IH. by destruct (strip_prefix k _).
Qed.

End SubstringFacts.

Lemma any_in_spec ks text :
  any_in ks text = true <-> exists k a b, In k ks /\ text = a ++ k ++ b.
Proof.
  unfold any_in. rewrite existsb_exists. split.
  - intros (k & I & (a & b & E)%contains_spec). eauto.
  - intros (k & a & b & I & E). exists k. split; [done|].
    apply contains_spec. eauto.
Qed.

(** * The claims about the route generator *)

(** C1.  Whatever the prompt, and so for every prompt the handler
    accepts, the generator returns a list of exactly three
    recommendations, whose ids are [route_balance], [route_power] and
    [route_portability], in this order. *)
Theorem three_routes_in_fixed_order `{Unicode} (prompt : str) (w : world) :
  exists recs w' rs,
    _generate_recommendations prompt w = (inr recs, w')
    /\ for_each model_dump recs w' = (inr rs, w')
    /\ length recs = 3%nat
    /\ length rs = 3%nat
    /\ map id rs
       = [py "route_balance"; py "route_power"; py "route_portability"].
Proof.
  pose proof (generate_run prompt w) as G. cbv zeta in G.
  eexists _, _, _. split; [exact G|].
  split.
  - pose proof (dump_three (heap w) (vault w)
        (set_recommended_of
           (negb (any_in portabilidad_keywords (lower prompt))
            && negb (any_in rendimiento_keywords (lower prompt)))
           (balance_record (extract_budget (lower prompt))))
        (set_recommended_of (any_in rendimiento_keywords (lower prompt))
           power_record)
        (set_recommended_of (any_in portabilidad_keywords (lower prompt))
           portability_record) []) as D.
    rewrite app_nil_r in D. exact D.
  - repeat split.
Qed.

(** C2.  The [recommended] flags follow the sequential overrides.
    [portabilidad] is detected exactly when one of the keywords peso,
    liger, portátil, portatil occurs somewhere in the lowercased
    prompt, [rendimiento] exactly when one of render, 3d, lumion,
    blender, revit, potencia, gpu occurs.  From the default flags
    true, false, false the first override, when [portabilidad] is
    detected, clears the flag of the balance route and sets that of the
    portability route; then the second, when [rendimiento] is detected,
    clears the flag of the balance route and sets that of the power
    route.  So the flags are: balance when neither occurs, power when
    [rendimiento] occurs, portability when [portabilidad] occurs; with
    keywords of both groups they are false, true, true. *)
Theorem recommended_flags_by_sequential_override `{Unicode}
    (prompt : str) (w : world) :
  let text := lower prompt in
  let occurs := fun keywords : list str =>
    exists k before after, In k keywords /\ text = before ++ k ++ after in
  let portabilidad_occurs :=
    occurs [py "peso"; py "liger"; py "portátil"; py "portatil"] in
  let rendimiento_occurs :=
    occurs [py "render"; py "3d"; py "lumion"; py "blender"; py "revit";
            py "potencia"; py "gpu"] in
  exists (portabilidad rendimiento : bool) rs w',
    (portabilidad = true <-> portabilidad_occurs)
    /\ (rendimiento = true <-> rendimiento_occurs)
    /\ generated_records prompt w = (inr rs, w')
    /\ map id rs
       = [py "route_balance"; py "route_power"; py "route_portability"]
    /\ map recommended rs
       = [negb portabilidad && negb rendimiento; rendimiento; portabilidad]
    /\ map recommended rs
       = (if rendimiento
          then fun flags => <[1%nat := true]> (<[0%nat := false]> flags)
          else fun flags => flags)
           ((if portabilidad
             then fun flags => <[2%nat := true]> (<[0%nat := false]> flags)
             else fun flags => flags)
              [true; false; false])
    /\ (portabilidad_occurs -> rendimiento_occurs ->
        map recommended rs = [false; true; true]).
Proof.
  intros text occurs portabilidad_occurs rendimiento_occurs.
  pose proof (any_in_spec portabilidad_keywords text) as SP.
  pose proof (any_in_spec rendimiento_keywords text) as SR.
  pose proof (generated_run prompt w) as G. cbv zeta in G. fold text in G.
  exists (any_in portabilidad_keywords text),
    (any_in rendimiento_keywords text).
  eexists _, _.
  split; [exact SP|]. split; [exact SR|]. split; [exact G|].
  split; [reflexivity|]. split; [reflexivity|].
  split.
  - by destruct (any_in portabilidad_keywords text),
         (any_in rendimiento_keywords text).
  - intros OP OR. apply SP in OP. apply SR in OR.
    cbn [map recommended set_recommended_of]. by rewrite OP, OR.
Qed.

Lemma recommended_flags_by_sequential_override_witness :
  exists rs w',
    @generated_records Latin1.unicode (py "Algo PORTÁTIL para Render 3D")
      {| heap := []; vault := [] |} = (inr rs, w')
    /\ map recommended rs = [false; true; true].
Proof.
  destruct (@recommended_flags_by_sequential_override Latin1.unicode
              (py "Algo PORTÁTIL para Render 3D")
              {| heap := []; vault := [] |})
    as (portabilidad & rendimiento & rs & w' & _ & _ & G & _ & _ & _ & Both).
  exists rs, w'. split; [exact G|]. apply Both.
  - exists (py "portátil"), (py "algo "), (py " para render 3d").
    split; [right; right; left; reflexivity|vm_compute; reflexivity].
  - exists (py "render"), (py "algo portátil para "), (py " 3d").
    split; [left; reflexivity|vm_compute; reflexivity].
Defined.

(** C10.  Whatever the prompt, at least one of the three generated
    recommendations has [recommended = true]: an override clears the
    flag of the balance route only while setting the flag of another
    route. *)
Theorem some_route_is_recommended `{Unicode} (prompt : str) (w : world) :
  exists rs w',
    generated_records prompt w = (inr rs, w')
    /\ length rs = 3%nat
    /\ existsb recommended rs = true.
Proof.
  pose proof (generated_run prompt w) as G. cbv zeta in G.
  eexists _, _. split; [exact G|]. split; [reflexivity|].
  destruct (any_in portabilidad_keywords (lower prompt)),
    (any_in rendimiento_keywords (lower prompt)); reflexivity.
Qed.

(** C7.  The generator is total: run on any string, in any state of the
    object store, it returns its list and raises nothing (the indexed
    accesses to [recs] are in range, the objects assigned to exist).
    A failure of [int] on the first group, or a group that is [None],
    is caught: the budget is then unset. *)
Theorem generator_is_total `{Unicode} :
  (forall (prompt : str) (w : world),
     exists recs w', _generate_recommendations prompt w = (inr recs, w'))
  /\ (forall (m : Re.Match) (e : exn),
        int (Re.group m 1) = inl e -> budget_of_match m = None).
Proof.
  split.
  - intros prompt w. pose proof (generate_run prompt w) as G. cbv zeta in G.
    eauto.
  - intros m e E. unfold budget_of_match. by rewrite E.
Qed.

Lemma generator_is_total_witness :
  (exists recs w',
     @_generate_recommendations Latin1.unicode (py "")
       {| heap := []; vault := [] |} = (inr recs, w'))
  /\ @int Latin1.unicode
       (Re.group {| Re.whole := []; Re.captured := [] |} 1) = inl TypeError
  /\ @budget_of_match Latin1.unicode
       {| Re.whole := []; Re.captured := [] |} = None.
Proof.
  split; [apply (proj1 (@generator_is_total Latin1.unicode))|].
  split; [reflexivity|].
  apply (proj2 (@generator_is_total Latin1.unicode) _ TypeError).
  reflexivity.
Defined.

(** C8.  Two prompts whose lowercased texts give the same budget and
    agree on the presence of a portabilidad keyword and of a rendimiento
    keyword lead to the same list of recommendations, whatever the state
    of the store at either call; the confianza and ruido keywords are
    not consulted. *)
Theorem only_budget_and_two_signals_matter `{Unicode}
    (p1 p2 : str) (w1 w2 : world) :
  extract_budget (lower p1) = extract_budget (lower p2) ->
  any_in portabilidad_keywords (lower p1)
  = any_in portabilidad_keywords (lower p2) ->
  any_in rendimiento_keywords (lower p1)
  = any_in rendimiento_keywords (lower p2) ->
  exists rs,
    (generated_records p1 w1).1 = inr rs
    /\ (generated_records p2 w2).1 = inr rs.
Proof.
  intros EB EP ER.
  pose proof (generated_run p1 w1) as G1. cbv zeta in G1.
  pose proof (generated_run p2 w2) as G2. cbv zeta in G2.
  rewrite G1, G2, EB, EP, ER. simpl. eauto.
Qed.

Lemma only_budget_and_two_signals_matter_witness :
  @extract_budget Latin1.unicode
    (@lower Latin1.unicode (py "Laptop de 25k con garantía y silenciosa"))
  = @extract_budget Latin1.unicode
      (@lower Latin1.unicode (py "laptop de 25K económica"))
  /\ exists rs,
       (@generated_records Latin1.unicode
          (py "Laptop de 25k con garantía y silenciosa")
          {| heap := []; vault := [] |}).1 = inr rs
       /\ (@generated_records Latin1.unicode
             (py "laptop de 25K económica")
             {| heap := [power_record]; vault := [] |}).1 = inr rs.
Proof.
  split; [vm_compute; reflexivity|].
  apply (@only_budget_and_two_signals_matter Latin1.unicode);
    vm_compute; reflexivity.
Defined.

(** C9.  The generator is deterministic.  Called twice in a row with the
    same prompt it returns two lists of fresh objects, and the fields
    read from the first list after the second call are those read from
    the second list; nor does the content depend on the state in which
    the call is made. *)
Theorem generator_is_deterministic `{Unicode} (prompt : str) (w : world) :
  (exists recs1 w1 recs2 w2 rs,
     _generate_recommendations prompt w = (inr recs1, w1)
     /\ _generate_recommendations prompt w1 = (inr recs2, w2)
     /\ for_each model_dump recs1 w2 = (inr rs, w2)
     /\ for_each model_dump recs2 w2 = (inr rs, w2))
  /\ (forall w' : world,
        exists rs,
          (generated_records prompt w).1 = inr rs
          /\ (generated_records prompt w').1 = inr rs).
Proof.
  split.
  - pose proof (generate_run prompt w) as G1. cbv zeta in G1.
    remember (set_recommended_of
                (negb (any_in portabilidad_keywords (lower prompt))
                 && negb (any_in rendimiento_keywords (lower prompt)))
                (balance_record (extract_budget (lower prompt)))) as x.
    remember (set_recommended_of
                (any_in rendimiento_keywords (lower prompt)) power_record) as y.
    remember (set_recommended_of
                (any_in portabilidad_keywords (lower prompt))
                portability_record) as z.
    pose proof (generate_run prompt
                  {| heap := heap w ++ [x; y; z]; vault := vault w |}) as G2.
    cbv zeta in G2. cbn [heap vault] in G2.
    rewrite <- Heqx, <- Heqy, <- Heqz in G2.
    eexists _, _, _, _, [x; y; z].
    split; [exact G1|]. split; [exact G2|]. split.
    + apply dump_three.
    + pose proof (dump_three (heap w ++ [x; y; z]) (vault w) x y z []) as D.
      rewrite app_nil_r in D. exact D.
  - intros w'.
    pose proof (generated_run prompt w) as G1. cbv zeta in G1.
    pose proof (generated_run prompt w') as G2. cbv zeta in G2.
    rewrite G1, G2. simpl. eauto.
Qed.

(** * The claims about the budget *)

Section BudgetRule.
Context `{Unicode}.

Lemma search_budget_pattern text m :
  Re.search budget_pattern text = Some m ->
  exists ds u num,
    Re.captured m = [(2%nat, u); (1%nat, ds)]
    /\ int (Some ds) = inr num
    /\ (u = [107] \/ u = [109; 105; 108] \/ u = [48; 48; 48]
        \/ u = [109; 120; 110]).
Proof.
  intros (before & at_ & _ & E)%search_here.
  by apply budget_match_here in E.
Qed.

Lemma budget_of_groups m ds u num :
  Re.captured m = [(2%nat, u); (1%nat, ds)] ->
  int (Some ds) = inr num ->
  Re.group m 1 = Some ds /\ Re.group m 2 = Some u
  /\ budget_of_match m
     = Some (num * (if member u [py "k"; py "mil"; py "k mxn"; py "mxn"]
                    then 1000 else 1)).
Proof.
  intros C I. unfold budget_of_match, Re.group. rewrite C.
  cbn [Re.lookup_group Nat.eqb]. by rewrite I.
Qed.

End BudgetRule.



Lemma extract_budget_30000 :
  @extract_budget Latin1.unicode
    (@lower Latin1.unicode (py "presupuesto de 30000")) = Some 30.
Proof. vm_compute; reflexivity. Qed.

(** C3, as stated, fails: for [presupuesto de 30000] the budget is not
    unset, and the second bullet of the balance route does not end in a
    plain period. *)
Lemma budget_of_30000_is_set :
  @extract_budget Latin1.unicode
    (@lower Latin1.unicode (py "presupuesto de 30000")) <> None
  /\ budget_bullet
       (@extract_budget Latin1.unicode
          (@lower Latin1.unicode (py "presupuesto de 30000")))
     <> py "Mantiene el presupuesto bajo control.".
Proof.
  rewrite extract_budget_30000. split; [discriminate|].
  vm_compute. discriminate.
Qed.

(** C3, amended.  For [presupuesto de 30000] the pattern matches at the
    digits: after backtracking from three digits to two, group 1 is
    [30] and group 2 the unit [000].  The budget is set, to 30 (the
    multiplier of the unit [000] is 1), and the second bullet of the
    balance route carries the figure: it ends in [(≤ 30 MXN)]. *)
Theorem budget_of_30000 (w : world) :
  @Re.search Latin1.unicode budget_pattern
    (@lower Latin1.unicode (py "presupuesto de 30000"))
  = Some {| Re.whole := py "30000";
            Re.captured := [(2%nat, py "000"); (1%nat, py "30")] |}
  /\ @extract_budget Latin1.unicode
       (@lower Latin1.unicode (py "presupuesto de 30000")) = Some 30
  /\ exists balance rs w',
       @generated_records Latin1.unicode (py "presupuesto de 30000") w
       = (inr rs, w')
       /\ rs !! 0%nat = Some balance
       /\ id balance = py "route_balance"
       /\ bullets balance !! 1%nat
          = Some (py "Mantiene el presupuesto bajo control (≤ 30 MXN)").
Proof.
  split; [vm_compute; reflexivity|].
  split; [exact extract_budget_30000|].
  pose proof (@generated_run Latin1.unicode (py "presupuesto de 30000") w) as G.
  cbv zeta in G. rewrite extract_budget_30000 in G.
  eexists _, _, _. split; [exact G|].
  split; [reflexivity|]. split; [reflexivity|].
  vm_compute; reflexivity.
Qed.

(** * The claims about the handler *)

Section HandlerFacts.
Context `{Unicode}.

Lemma length_lstrip s : (length (lstrip s) <= length s)%nat.
Proof.
  induction s as [|c s IH]; simpl; [lia|].
  destruct (isspace c); simpl; lia.
Qed.

Lemma length_strip s : (length (strip s) <= length s)%nat.
Proof.
  unfold strip, rstrip. rewrite List.length_rev.
  etransitivity; [apply length_lstrip|].
  rewrite List.length_rev. apply length_lstrip.
Qed.

Lemma too_short db now req w :
  (length (strip (prompt req)) < 15)%nat ->
  analyze_decision db now req w = (inl (HTTPException 400 guidance), w).
Proof.
  intros L. unfold analyze_decision.
  by rewrite (proj2 (Nat.ltb_lt _ _) L), orb_true_r.
Qed.

Lemma dump_three_here h v x y z :
  for_each model_dump [length h; S (length h); S (S (length h))]
    {| heap := h ++ [x; y; z]; vault := v |}
  = (inr [x; y; z], {| heap := h ++ [x; y; z]; vault := v |}).
Proof.
  pose proof (dump_three h v x y z []) as D.
  by rewrite app_nil_r in D.
Qed.

(** The handler on a prompt that passes its test, with any
    collaborator. *)
Lemma analyze_valid db now req w :
  (15 <= length (strip (prompt req)))%nat ->
  let text := lower (prompt req) in
  let rs := [set_recommended_of
               (negb (any_in portabilidad_keywords text)
                && negb (any_in rendimiento_keywords text))
               (balance_record (extract_budget text));
             set_recommended_of (any_in rendimiento_keywords text)
               power_record;
             set_recommended_of (any_in portabilidad_keywords text)
               portability_record] in
  let md := {| received_at := now; length_ := length (prompt req) |} in
  let payload := {| p_prompt := prompt req;
                    p_robot_message := the_robot_message;
                    p_recommendations := rs;
                    p_metadata := md;
                    p_type := py "decision_route" |} in
  let response := fun i =>
    {| robot_message := the_robot_message; status := ready;
       recommendations := rs; decision_id := i; metadata := md |} in
  analyze_decision db now req w
  = match db with
    | NoDatabase =>
        (inr (response None),
         {| heap := heap w ++ rs; vault := vault w |})
    | Database f =>
        (inr (response match f (py "decisionroute") payload with
                       | inr i => i
                       | inl _ => None
                       end),
         {| heap := heap w ++ rs;
            vault := vault w ++ [(py "decisionroute", payload)] |})
    end.
Proof.
  intros L text rs md payload response.
  assert (T : truthy (prompt req) = true).
  { pose proof (length_strip (prompt req)).
    destruct (prompt req); [simpl in *; lia|done]. }
  unfold analyze_decision.
  rewrite T, (proj2 (Nat.ltb_ge _ _) L). cbn [negb orb].
  unfold mbind at 1. unfold M_bind at 1.
  rewrite generate_run. fold text.
  unfold mbind at 1. unfold M_bind at 1.
  unfold try_except.
  destruct db as [|f].
  - cbn [import_create_document]. unfold mbind at 1. unfold M_bind at 1.
    unfold raise at 1. cbn [mret M_ret].
    unfold mbind at 1. unfold M_bind at 1.
    rewrite dump_three_here. reflexivity.
  - cbn [import_create_document]. unfold mbind at 1. unfold M_bind at 1.
    cbn [mret M_ret].
    unfold mbind at 1. unfold M_bind at 1.
    rewrite dump_three_here. cbn [heap vault].
    subst response payload rs md.
    destruct (f (py "decisionroute") _) as [e|i].
    + cbn [mret M_ret]. unfold mbind at 1. unfold M_bind at 1.
      rewrite dump_three_here. reflexivity.
    + unfold mbind at 1. unfold M_bind at 1.
      rewrite dump_three_here. reflexivity.
Qed.

End HandlerFacts.

(** C5, as stated, fails: a body whose prompt has fewer than 15
    characters, such as [hola], does not reach the handler.  The
    validation of [AnalyzeRequest] ([min_length=15]) rejects it, and
    the reply is FastAPI's validation error, not the [HTTPException]
    with status 400 and the guidance message. *)
Lemma short_body_is_rejected_by_the_model :
  (length (strip (py "hola")) < 15)%nat
  /\ (@post_analyze Latin1.unicode NoDatabase (py "2026-01-01T00:00:00+00:00")
        (py "hola") {| heap := []; vault := [] |}).1
     <> Raised (HTTPException 400 guidance)
  /\ status_code_of
       (@post_analyze Latin1.unicode NoDatabase (py "2026-01-01T00:00:00+00:00")
          (py "hola") {| heap := []; vault := [] |}).1 <> 400.
Proof.
  split; [vm_compute; lia|].
  split; vm_compute; discriminate.
Qed.

(** C5, amended.  A prompt whose trimmed length is below 15 makes the
    analyze operation fail, and neither the generator nor the
    persistence collaborator is run: the store and the vault are left as
    they were.  The handler, whenever it is called with such a prompt,
    raises [HTTPException] with status 400 and the guidance message.
    On the route this is the reply when the prompt itself has 15
    characters or more; before that, the validation of the request
    model rejects a prompt of fewer than 15 characters (status 422),
    and a prompt holding a lone surrogate, for which the route cannot
    even encode its error (status 500). *)
Theorem short_prompt_fails `{Unicode}
    (db : database) (now body_prompt : str) (w : world) :
  (length (strip body_prompt) < 15)%nat ->
  analyze_decision db now {| prompt := body_prompt |} w
  = (inl (HTTPException 400 guidance), w)
  /\ post_analyze db now body_prompt w
     = (if negb (encodable body_prompt) then EncodingError
        else if (length body_prompt <? 15)%nat then RequestValidationError
        else Raised (HTTPException 400 guidance),
        w)
  /\ status_code_of (post_analyze db now body_prompt w).1
     = (if negb (encodable body_prompt) then 500
        else if (length body_prompt <? 15)%nat then 422
        else 400).
Proof.
  intros L. split; [by apply too_short|].
  unfold post_analyze, validate_AnalyzeRequest.
  destruct (negb (encodable body_prompt)); [done|].
  destruct (length body_prompt <? 15)%nat; [done|].
  by rewrite too_short.
Qed.

Lemma short_prompt_fails_witness :
  (length (strip (py "   hola   mundo   ")) < 15)%nat
  /\ @analyze_decision Latin1.unicode NoDatabase (py "2026-01-01T00:00:00+00:00")
       {| prompt := py "   hola   mundo   " |} {| heap := []; vault := [] |}
     = (inl (HTTPException 400 guidance), {| heap := []; vault := [] |})
  /\ status_code_of
       (@post_analyze Latin1.unicode NoDatabase (py "2026-01-01T00:00:00+00:00")
          (py "   hola   mundo   ") {| heap := []; vault := [] |}).1 = 400.
Proof.
  assert (L : (length (strip (py "   hola   mundo   ")) < 15)%nat)
    by (vm_compute; lia).
  split; [exact L|].
  destruct (@short_prompt_fails Latin1.unicode NoDatabase
              (py "2026-01-01T00:00:00+00:00") (py "   hola   mundo   ")
              {| heap := []; vault := [] |} L) as (Handler & _ & Status).
  split; [exact Handler|].
  rewrite Status. vm_compute; reflexivity.
Defined.

(** C6.  For a prompt the handler accepts, a missing persistence module
    or a [create_document] that raises never fails the request: the
    handler returns its response with [decision_id] null.  The other
    fields, the message, the status, the three recommendations and the
    metadata, are those of a response with a successful persistence,
    which differs by its [decision_id] only.  On the route, for a
    prompt that passed the validation of the request model, the answer
    is then this response, with status 200. *)
Theorem persistence_failure_is_absorbed `{Unicode}
    (now : str) (req : AnalyzeRequest) (w : world) :
  (15 <= length (strip (prompt req)))%nat ->
  exists rs,
    let md := {| received_at := now; length_ := length (prompt req) |} in
    let payload := {| p_prompt := prompt req;
                      p_robot_message := the_robot_message;
                      p_recommendations := rs;
                      p_metadata := md;
                      p_type := py "decision_route" |} in
    let response := fun i =>
      {| robot_message := the_robot_message; status := ready;
         recommendations := rs; decision_id := i; metadata := md |} in
    length rs = 3%nat
    /\ (analyze_decision NoDatabase now req w).1 = inr (response None)
    /\ (forall create_document e,
          create_document (py "decisionroute") payload = inl e ->
          (analyze_decision (Database create_document) now req w).1
          = inr (response None))
    /\ (forall create_document i,
          create_document (py "decisionroute") payload = inr i ->
          (analyze_decision (Database create_document) now req w).1
          = inr (response i))
    /\ (encodable (prompt req) = true ->
        encodable now = true ->
        forall db,
          db = NoDatabase
          \/ (exists create_document e,
                db = Database create_document
                /\ create_document (py "decisionroute") payload = inl e) ->
          (post_analyze db now (prompt req) w).1 = Returned (response None)
          /\ status_code_of (post_analyze db now (prompt req) w).1 = 200).
Proof.
  intros L. eexists. cbv zeta.
  split; [|split; [|split; [|split]]].
  - shelve.
  - rewrite (analyze_valid NoDatabase now req w L). reflexivity.
  - intros f e E.
    rewrite (analyze_valid (Database f) now req w L). cbv zeta.
    rewrite E. reflexivity.
  - intros f i E.
    rewrite (analyze_valid (Database f) now req w L). cbv zeta.
    rewrite E. reflexivity.
  - intros Ep En db Fails.
    unfold post_analyze, validate_AnalyzeRequest.
    pose proof (length_strip (prompt req)) as S.
    rewrite Ep, (proj2 (Nat.ltb_ge (length (prompt req)) 15)) by lia.
    cbn [negb]. destruct req as [p]. cbn [prompt] in *.
    rewrite (analyze_valid db now {| prompt := p |} w L). cbv zeta.
    cbn [prompt].
    destruct Fails as [->|(f & e & -> & E)]; [|rewrite E];
      unfold response_encodable; cbn [metadata received_at decision_id];
      rewrite En; split; reflexivity.
  Unshelve. reflexivity.
Qed.

Lemma persistence_failure_is_absorbed_witness :
  (15 <= length (strip (py "laptop de 25k mxn para gpu")))%nat
  /\ exists rs,
       length rs = 3%nat
       /\ (@analyze_decision Latin1.unicode
             (Database (fun _ _ => inl (CollaboratorError (py "no connection"))))
             (py "2026-01-01T00:00:00+00:00")
             {| prompt := py "laptop de 25k mxn para gpu" |}
             {| heap := []; vault := [] |}).1
          = inr {| robot_message := the_robot_message;
                   status := ready;
                   recommendations := rs;
                   decision_id := None;
                   metadata :=
                     {| received_at := py "2026-01-01T00:00:00+00:00";
                        length_ :=
                          length (prompt {| prompt := py "laptop de 25k mxn para gpu" |}) |} |}
       /\ status_code_of
            (@post_analyze Latin1.unicode
               (Database (fun _ _ => inl (CollaboratorError (py "no connection"))))
               (py "2026-01-01T00:00:00+00:00")
               (prompt {| prompt := py "laptop de 25k mxn para gpu" |})
               {| heap := []; vault := [] |}).1 = 200.
Proof.
  assert (V : (15 <= length (strip (py "laptop de 25k mxn para gpu")))%nat)
    by (vm_compute; lia).
  split; [exact V|].
  destruct (@persistence_failure_is_absorbed Latin1.unicode
              (py "2026-01-01T00:00:00+00:00")
              {| prompt := py "laptop de 25k mxn para gpu" |}
              {| heap := []; vault := [] |} V) as (rs & P).
  cbv zeta in P. destruct P as (L & _ & Raises & _ & Route).
  exists rs. split; [exact L|].
  split.
  - specialize (Raises (fun _ _ => inl (CollaboratorError (py "no connection")))
                  (CollaboratorError (py "no connection")) eq_refl).
    exact Raises.
  - assert (Ep : encodable (prompt {| prompt := py "laptop de 25k mxn para gpu" |})
                 = true) by (vm_compute; reflexivity).
    assert (En : encodable (py "2026-01-01T00:00:00+00:00") = true)
      by (vm_compute; reflexivity).
    refine (proj2 (Route Ep En
                     (Database (fun _ _ => inl (CollaboratorError (py "no connection"))))
                     _)).
    right. exists (fun _ _ => inl (CollaboratorError (py "no connection"))),
             (CollaboratorError (py "no connection")).
    split; reflexivity.
Defined.

(** * The examples of the specification, evaluated *)

Section Examples.
Import Latin1.

Example thousands_25000 : Format.thousands 25000 = py "25,000".
Proof. vm_compute; reflexivity. Qed.

Example thousands_999000 : Format.thousands 999000 = py "999,000".
Proof. vm_compute; reflexivity. Qed.

Example thousands_30 : Format.thousands 30 = py "30".
Proof. vm_compute; reflexivity. Qed.

Example flags_portatil_y_ligera :
  match (generated_records (py "Busco una laptop portátil y ligera") {| heap := []; vault := [] |}).1 with
  | inr rs => map recommended rs
  | inl _ => []
  end = [false; false; true].
Proof. vm_compute; reflexivity. Qed.

Example flags_gpu_para_blender :
  match (generated_records (py "necesito gpu para blender") {| heap := []; vault := [] |}).1 with
  | inr rs => map recommended rs
  | inl _ => []
  end = [false; true; false].
Proof. vm_compute; reflexivity. Qed.

Example flags_portatil_y_render_3d :
  match (generated_records (py "algo portátil para render 3d") {| heap := []; vault := [] |}).1 with
  | inr rs => map recommended rs
  | inl _ => []
  end = [false; true; true].
Proof. vm_compute; reflexivity. Qed.

Example flags_without_signals :
  match (generated_records (py "una computadora para la oficina") {| heap := []; vault := [] |}).1 with
  | inr rs => map recommended rs
  | inl _ => []
  end = [true; false; false].
Proof. vm_compute; reflexivity. Qed.

Example budget_of_250000 :
  extract_budget (lower (py "tengo 250000")) = Some 250.
Proof. vm_compute; reflexivity. Qed.

Example no_budget_without_unit :
  extract_budget (lower (py "presupuesto de 300 pesos")) = None.
Proof. vm_compute; reflexivity. Qed.

Example status_of_a_lone_surrogate :
  status_code_of
    (post_analyze NoDatabase (py "2026-01-01T00:00:00+00:00")
       (0xD800 :: py " laptop de 25k mxn para gpu")
       {| heap := []; vault := [] |}).1 = 500.
Proof. vm_compute; reflexivity. Qed.

Example status_of_a_short_prompt :
  status_code_of
    (post_analyze NoDatabase (py "2026-01-01T00:00:00+00:00")
       (py "hola") {| heap := []; vault := [] |}).1 = 422.
Proof. vm_compute; reflexivity. Qed.

Example budget_bullet_25000 :
  budget_bullet (Some 25000)
  = py "Mantiene el presupuesto bajo control (≤ 25,000 MXN)".
Proof. vm_compute; reflexivity. Qed.

End Examples.

(** * Further properties of the generator *)



(** X2.  Whatever the two prompts, the records generated for them agree
    on the id, the title, the summary, the badge and, but for the second
    bullet of the balance route, on the bullets: every record has four
    bullets and the badges are Balance, Riesgo alto, Conservadora.
    Only [recommended] and that one bullet depend on the prompt. *)
Theorem only_flags_and_budget_bullet_vary `{Unicode}
    (p1 p2 : str) (w1 w2 : world) :
  exists rs1 rs2 w1' w2',
    generated_records p1 w1 = (inr rs1, w1')
    /\ generated_records p2 w2 = (inr rs2, w2')
    /\ map id rs1 = map id rs2
    /\ map title rs1 = map title rs2
    /\ map summary rs1 = map summary rs2
    /\ map badge rs1 = [Balance; Riesgo_alto; Conservadora]
    /\ map badge rs2 = [Balance; Riesgo_alto; Conservadora]
    /\ map (fun r => length (bullets r)) rs1 = [4; 4; 4]%nat
    /\ map (fun r => length (bullets r)) rs2 = [4; 4; 4]%nat
    /\ map (fun r => delete 1%nat (bullets r)) (take 1 rs1)
       = map (fun r => delete 1%nat (bullets r)) (take 1 rs2)
    /\ map bullets (drop 1 rs1) = map bullets (drop 1 rs2).
Proof.
  pose proof (generated_run p1 w1) as G1. cbv zeta in G1.
  pose proof (generated_run p2 w2) as G2. cbv zeta in G2.
  eexists _, _, _, _. split; [exact G1|]. split; [exact G2|].
  cbn [map take drop id title summary badge bullets set_recommended_of
         balance_record power_record portability_record
         delete list_delete length].
  repeat split.
Qed.

(** X3.  One route is flagged, or two: two exactly when a portabilidad
    and a rendimiento keyword both occur; never none and never all
    three. *)
Theorem one_or_two_routes_recommended `{Unicode} (prompt : str) (w : world) :
  exists rs w',
    generated_records prompt w = (inr rs, w')
    /\ length (List.filter recommended rs)
       = (if any_in portabilidad_keywords (lower prompt)
             && any_in rendimiento_keywords (lower prompt)
          then 2 else 1)%nat.
Proof.
  pose proof (generated_run prompt w) as G. cbv zeta in G.
  eexists _, _. split; [exact G|].
  destruct (any_in portabilidad_keywords (lower prompt)),
    (any_in rendimiento_keywords (lower prompt));
    cbn [List.filter recommended set_recommended_of negb andb length];
    reflexivity.
Qed.


(** X4.  The signals are substring tests on the lowercased prompt, with
    no word boundary: the power route is flagged exactly when a
    rendimiento keyword occurs somewhere in it, the portability route
    exactly when a portabilidad keyword occurs, and the balance route
    exactly when none of either group occurs. *)
Theorem flags_follow_keyword_occurrences `{Unicode} (prompt : str) (w : world) :
  let occurs := fun keywords : list str =>
    exists k a b, In k keywords /\ lower prompt = a ++ k ++ b in
  exists balance power portability w',
    generated_records prompt w = (inr [balance; power; portability], w')
    /\ (recommended power = true <-> occurs rendimiento_keywords)
    /\ (recommended portability = true <-> occurs portabilidad_keywords)
    /\ (recommended balance = true
        <-> ~ occurs rendimiento_keywords /\ ~ occurs portabilidad_keywords).
Proof.
  intros occurs.
  pose proof (generated_run prompt w) as G. cbv zeta in G.
  eexists _, _, _, _. split; [exact G|].
  cbn [recommended set_recommended_of]. subst occurs. cbv beta.
  rewrite <- !any_in_spec.
  destruct (any_in portabilidad_keywords (lower prompt)),
    (any_in rendimiento_keywords (lower prompt)); cbn [negb andb];
    intuition congruence.
Qed.

Lemma plain_bullet :
  py "Mantiene el presupuesto bajo control."
  = py "Mantiene el presupuesto bajo control" ++ py ".".
Proof. vm_compute; reflexivity. Qed.

Lemma budget_bullet_plain (budget : option Z) :
  budget_bullet budget = py "Mantiene el presupuesto bajo control."
  <-> budget = None \/ budget = Some 0.
Proof.
  rewrite plain_bullet. unfold budget_bullet.
  destruct budget as [b|]; [|by intuition].
  destruct (Z.eqb_spec b 0) as [->|N].
  - by intuition.
  - split.
    + intros E%app_inv_head.
      replace (py " (≤ ") with [32; 40; 8804; 32] in E
        by (vm_compute; reflexivity).
      replace (py ".") with [46] in E by (vm_compute; reflexivity).
      discriminate E.
    + intros [?|[= ?]]; [discriminate|contradiction].
Qed.

(** X5.  A budget of zero is shown like no budget: the second bullet of
    the balance route is the plain sentence ending in a period exactly
    when no budget was extracted or the extracted budget is 0 (as for
    [00k]); otherwise it carries a figure. *)
Theorem zero_budget_is_shown_as_none `{Unicode} (prompt : str) (w : world) :
  exists balance rest bullet w',
    generated_records prompt w = (inr (balance :: rest), w')
    /\ bullets balance !! 1%nat = Some bullet
    /\ (bullet = py "Mantiene el presupuesto bajo control."
        <-> extract_budget (lower prompt) = None
            \/ extract_budget (lower prompt) = Some 0).
Proof.
  pose proof (generated_run prompt w) as G. cbv zeta in G.
  eexists _, _, _, _. split; [exact G|].
  split; [reflexivity|]. apply budget_bullet_plain.
Qed.

(** * Further properties of the budget extraction *)

Section MatcherCompleteness.
Context `{Unicode}.

(** The matcher finds a match whenever the pattern has a reading after
    which the continuation succeeds. *)
Lemma matchr_complete {R} (r : Re.regex) :
  forall p s' g g' (k : str -> Re.groups -> option R),
    Re.denotes r p g g' ->
    is_Some (k s' g') ->
    is_Some (Re.matchr r (p ++ s') g k).
Proof.
  induction r as [l| | |r1 IH1 r2 IH2|r1 IH1 r2 IH2|r1 IH1|lo hi r1 IH1|n r1 IH1];
    intros p s' g g' k D K; simpl in D.
  - destruct D as (-> & ->). simpl. by rewrite strip_prefix_of_app.
  - destruct D as (c & d & -> & E & ->). simpl. by rewrite E.
  - destruct D as (c & -> & E & ->). simpl. by rewrite E.
  - destruct D as (p1 & p2 & g1 & -> & D1 & D2).
    rewrite <- app_assoc. simpl. eapply IH1; [exact D1|]. by eapply IH2.
  - simpl. destruct (Re.matchr r1 (p ++ s') g k) as [x|] eqn:E; [done|].
    destruct D as [D|D]; [|by eapply IH2].
    pose proof (IH1 _ _ _ _ _ D K) as S. rewrite E in S. by destruct S.
  - simpl. destruct (Re.matchr r1 (p ++ s') g k) as [x|] eqn:E; [done|].
    destruct D as [D|(-> & ->)]; [|done].
    pose proof (IH1 _ _ _ _ _ D K) as S. rewrite E in S. by destruct S.
  - revert lo p s' g g' k D K.
    induction hi as [|hi IHhi]; intros lo p s' g g' k D K.
    + destruct D as (-> & -> & ->). done.
    + change (Re.matchr (Re.Rep lo (S hi) r1) (p ++ s') g k)
        with (match Re.matchr r1 (p ++ s') g
                       (fun s'' g'' =>
                          Re.matchr (Re.Rep (Nat.pred lo) hi r1) s'' g'' k) with
              | Some x => Some x
              | None => if lo is O then k (p ++ s') g else None
              end).
      destruct (Re.matchr r1 (p ++ s') g _) as [x|] eqn:E; [done|].
      destruct D as [(p1 & p2 & g1 & -> & D1 & D2)|(-> & -> & ->)]; [|done].
      rewrite <- app_assoc in E.
      assert (S : is_Some (Re.matchr r1 (p1 ++ p2 ++ s') g
                   (fun s'' g'' =>
                      Re.matchr (Re.Rep (Nat.pred lo) hi r1) s'' g'' k))).
      { eapply IH1; [exact D1|]. by eapply IHhi. }
      rewrite E in S. by destruct S.
  - destruct D as (g1 & D & ->). simpl.
    eapply IH1; [exact D|]. by rewrite take_consumed.
Qed.

Lemma search_unfold r s :
  Re.search r s
  = match Re.match_here r s with
    | Some m => Some m
    | None => match s with
              | [] => None
              | _ :: s' => Re.search r s'
              end
    end.
Proof. by destruct s. Qed.

Lemma search_complete r before s :
  is_Some (Re.match_here r s) -> is_Some (Re.search r (before ++ s)).
Proof.
  intros M. induction before as [|c before IH]; rewrite search_unfold.
  - simpl. by destruct M as [m ->].
  - destruct (Re.match_here r ((c :: before) ++ s)); [done|]. exact IH.
Qed.

End MatcherCompleteness.

Section BudgetShape.
Context `{Unicode}.

(** The text consumed by a match of the budget pattern: the digits of
    group 1, at most one blank, the unit of group 2. *)
Lemma budget_match_shape s m :
  Re.match_here budget_pattern s = Some m ->
  exists ds sp u rest,
    s = ds ++ sp ++ u ++ rest
    /\ Re.whole m = ds ++ sp ++ u
    /\ Re.captured m = [(2%nat, u); (1%nat, ds)]
    /\ ((exists c1 c2 d1 d2,
           ds = [c1; c2] /\ to_decimal c1 = Some d1 /\ to_decimal c2 = Some d2)
        \/ (exists c1 c2 c3 d1 d2 d3,
              ds = [c1; c2; c3] /\ to_decimal c1 = Some d1
              /\ to_decimal c2 = Some d2 /\ to_decimal c3 = Some d3))
    /\ (sp = [] \/ exists c, sp = [c] /\ isspace c = true)
    /\ (u = [107] \/ u = [109; 105; 108] \/ u = [48; 48; 48]
        \/ u = [109; 120; 110]).
Proof.
  unfold Re.match_here. rewrite budget_pattern_eq, matchr_Seq. intros E.
  apply matchr_sound in E as (p1 & s1 & g1 & -> & D1 & E).
  apply digits_group in D1 as (-> & Dg).
  rewrite matchr_Seq in E.
  apply matchr_sound in E as (p2 & s2 & g2 & -> & D2 & E).
  assert (g2 = [(1%nat, p1)]
          /\ (p2 = [] \/ exists c, p2 = [c] /\ isspace c = true)) as (-> & Sp).
  { simpl in D2. destruct D2 as [(c & -> & W & ->)|(-> & ->)]; eauto. }
  apply unit_choice in E as (u & s3 & -> & -> & Hu).
  exists p1, p2, u, s3. split; [done|]. split; [|done].
  cbn [Re.whole].
  replace (p1 ++ p2 ++ u ++ s3) with ((p1 ++ p2 ++ u) ++ s3)
    by (by rewrite <- !app_assoc).
  apply take_consumed.
Qed.

Lemma units_eq :
  [py "k"; py "mil"; py "000"; py "mxn"]
  = [[107]; [109; 105; 108]; [48; 48; 48]; [109; 120; 110]].
Proof. vm_compute; reflexivity. Qed.

Lemma budget_pattern_reads c1 c2 d1 d2 sp u :
  to_decimal c1 = Some d1 -> to_decimal c2 = Some d2 ->
  sp = [] \/ (exists c, sp = [c] /\ isspace c = true) ->
  In u [[107]; [109; 105; 108]; [48; 48; 48]; [109; 120; 110]] ->
  Re.denotes budget_pattern ([c1; c2] ++ sp ++ u) []
    [(2%nat, u); (1%nat, [c1; c2])].
Proof.
  intros D1 D2 Sp Hu. rewrite budget_pattern_eq.
  cbn [Re.denotes].
  exists [c1; c2], (sp ++ u), [(1%nat, [c1; c2])]. split; [done|]. split.
  - exists []. split; [|done]. left.
    exists [c1], [c2], []. split; [done|]. split; [by eauto|].
    left. exists [c2], [], []. split; [done|]. split; [by eauto|].
    right. done.
  - exists sp, u, [(1%nat, [c1; c2])]. split; [done|]. split.
    + destruct Sp as [->|(c & -> & W)]; [by right|left; eauto].
    + exists [(1%nat, [c1; c2])]. split; [|done].
      simpl in Hu. destruct Hu as [<-|[<-|[<-|[<-|[]]]]]; tauto.
Qed.

End BudgetShape.

(** X6.  A budget is extracted from a text exactly when the text holds,
    somewhere, two decimal digits, then at most one blank character,
    then one of the units [k], [mil], [000], [mxn]. *)
Theorem budget_set_exactly_on_digits_and_unit `{Unicode} (text : str) :
  is_Some (extract_budget text)
  <-> exists before c1 c2 sp u after,
        text = before ++ [c1; c2] ++ sp ++ u ++ after
        /\ is_Some (to_decimal c1) /\ is_Some (to_decimal c2)
        /\ (sp = [] \/ exists c, sp = [c] /\ isspace c = true)
        /\ In u [py "k"; py "mil"; py "000"; py "mxn"].
Proof.
  rewrite units_eq. split.
  - unfold extract_budget.
    destruct (Re.search budget_pattern text) as [m|] eqn:E;
      [intros _|by intros [? ?]].
    apply search_here in E as (before & at_ & -> & E).
    apply budget_match_shape in E
      as (ds & sp & u & rest & -> & _ & _ & Dg & Sp & Hu).
    assert (Iu : In u [[107]; [109; 105; 108]; [48; 48; 48]; [109; 120; 110]]).
    { destruct Hu as [-> | [-> | [-> | ->]]]; simpl; tauto. }
    destruct Dg as [(c1 & c2 & d1 & d2 & -> & E1 & E2)
                   |(c1 & c2 & c3 & d1 & d2 & d3 & -> & E1 & E2 & E3)].
    + exists before, c1, c2, sp, u, rest. rewrite E1, E2. eauto 10.
    + exists (before ++ [c1]), c2, c3, sp, u, rest. rewrite E2, E3.
      split; [by rewrite <- app_assoc|]. eauto 10.
  - intros (before & c1 & c2 & sp & u & after & -> & [d1 E1] & [d2 E2] & Sp & Hu).
    pose proof (budget_pattern_reads c1 c2 d1 d2 sp u E1 E2 Sp Hu) as D.
    assert (M : is_Some (Re.match_here budget_pattern
                           ([c1; c2] ++ sp ++ u ++ after))).
    { unfold Re.match_here.
      replace ([c1; c2] ++ sp ++ u ++ after)
        with (([c1; c2] ++ sp ++ u) ++ after)
        by (by rewrite <- !app_assoc).
      eapply matchr_complete; [exact D|done]. }
    apply (search_complete budget_pattern before) in M as [m E].
    unfold extract_budget. rewrite E.
    destruct (search_budget_pattern _ m E) as (ds & u' & num & C & I & _).
    destruct (budget_of_groups m ds u' num C I) as (_ & _ & ->). done.
Qed.

(** X7.  With decimal digits worth 0 to 9, an extracted budget lies
    between 0 and 999000; it is below 1000 (unit [000], the figure taken
    at face value) or a multiple of 1000 (units [k], [mil], [mxn]). *)
Theorem extracted_budget_range `{Unicode} (text : str) (budget : Z) :
  (forall c d, to_decimal c = Some d -> 0 <= d <= 9) ->
  extract_budget text = Some budget ->
  0 <= budget <= 999000 /\ (budget < 1000 \/ budget mod 1000 = 0).
Proof.
  intros Range. unfold extract_budget.
  destruct (Re.search budget_pattern text) as [m|] eqn:E; [|discriminate].
  apply search_here in E as (before & at_ & -> & E).
  apply budget_match_shape in E
    as (ds & sp & u & rest & _ & _ & C & Dg & _ & Hu).
  assert (exists num, int (Some ds) = inr num /\ 0 <= num <= 999)
    as (num & I & Bn).
  { destruct Dg as [(c1 & c2 & d1 & d2 & -> & E1 & E2)
                   |(c1 & c2 & c3 & d1 & d2 & d3 & -> & E1 & E2 & E3)].
    - exists (10 * d1 + d2). split; [by apply int_two_digits|].
      pose proof (Range _ _ E1). pose proof (Range _ _ E2). lia.
    - exists (100 * d1 + 10 * d2 + d3).
      split; [by apply int_three_digits|].
      pose proof (Range _ _ E1). pose proof (Range _ _ E2).
      pose proof (Range _ _ E3). lia. }
  destruct (budget_of_groups m ds u num C I) as (_ & _ & ->).
  intros [= <-].
  destruct Hu as [-> | [-> | [-> | ->]]];
    match goal with
    | |- context [if ?b then 1000 else 1] =>
        let v := eval vm_compute in b in
        replace b with v by (vm_compute; reflexivity)
    end; cbv iota.
  - split; [lia|]. right. apply Z_mod_mult.
  - split; [lia|]. right. apply Z_mod_mult.
  - split; [lia|]. left. lia.
  - split; [lia|]. right. apply Z_mod_mult.
Qed.

Lemma latin1_decimal_range c d : Latin1.decimal c = Some d -> 0 <= d <= 9.
Proof.
  unfold Latin1.decimal.
  destruct (Z.leb_spec 48 c), (Z.leb_spec c 57); simpl; intros [= <-]; lia.
Qed.

Lemma extracted_budget_range_witness :
  @extract_budget Latin1.unicode
    (@lower Latin1.unicode (py "Laptop de 25K")) = Some 25000
  /\ 0 <= 25000 <= 999000 /\ (25000 < 1000 \/ 25000 mod 1000 = 0).
Proof.
  split; [vm_compute; reflexivity|].
  apply (@extracted_budget_range Latin1.unicode
           (@lower Latin1.unicode (py "Laptop de 25K"))).
  - exact latin1_decimal_range.
  - vm_compute; reflexivity.
Defined.

Section FirstFigure.
Context `{Unicode}.

Lemma no_match_without_leading_digit c s :
  to_decimal c = None -> Re.match_here budget_pattern (c :: s) = None.
Proof.
  intros N. destruct (Re.match_here budget_pattern (c :: s)) as [m|] eqn:E;
    [|done].
  apply budget_match_shape in E
    as (ds & sp & u & rest & S & _ & _ & Dg & _ & _).
  destruct Dg as [(c1 & c2 & d1 & d2 & -> & E1 & E2)
                 |(c1 & c2 & c3 & d1 & d2 & d3 & -> & E1 & E2 & E3)];
    injection S as -> _; congruence.
Qed.

Lemma search_skips_non_digits r before s :
  (forall c s', In c before -> Re.match_here r (c :: s') = None) ->
  Re.search r (before ++ s) = Re.search r s.
Proof.
  induction before as [|c before IH]; intros N; [done|].
  rewrite search_unfold. simpl.
  rewrite N by (by left). apply IH. intros c' s' I. apply N. by right.
Qed.

End FirstFigure.

(** X8.  The first figure decides.  When the text starts, after a part
    without any decimal digit, with a match of the budget pattern, the
    budget is the one of this match, whatever follows: a later figure
    is not looked at. *)
Theorem first_figure_is_the_budget `{Unicode}
    (before rest : str) (m : Re.Match) :
  Forall (fun c => to_decimal c = None) before ->
  Re.match_here budget_pattern rest = Some m ->
  extract_budget (before ++ rest) = budget_of_match m.
Proof.
  intros N E. unfold extract_budget.
  rewrite search_skips_non_digits.
  - rewrite search_unfold. by rewrite E.
  - intros c s' I. apply no_match_without_leading_digit.
    rewrite List.Forall_forall in N. by apply N.
Qed.

Lemma first_figure_is_the_budget_witness :
  Forall (fun c => Latin1.decimal c = None) (py "entre ")
  /\ @Re.match_here Latin1.unicode budget_pattern (py "20k y 30k")
     = Some {| Re.whole := py "20k";
               Re.captured := [(2%nat, py "k"); (1%nat, py "20")] |}
  /\ @extract_budget Latin1.unicode (py "entre " ++ py "20k y 30k")
     = Some 20000.
Proof.
  assert (N : Forall (fun c => Latin1.decimal c = None) (py "entre "))
    by (vm_compute; repeat constructor).
  assert (E : @Re.match_here Latin1.unicode budget_pattern (py "20k y 30k")
              = Some {| Re.whole := py "20k";
                        Re.captured := [(2%nat, py "k"); (1%nat, py "20")] |})
    by (vm_compute; reflexivity).
  split; [exact N|]. split; [exact E|].
  rewrite (@first_figure_is_the_budget Latin1.unicode _ _ _ N E).
  vm_compute; reflexivity.
Defined.

(** * Further properties of the handler *)

(** X9.  With a persistence collaborator that keeps its contract (the
    module is missing, or [create_document] raises an exception or
    returns an identifier or [None]) the handler has two outcomes only.
    With a prompt of trimmed length 15 or more it returns a response;
    otherwise it raises [HTTPException] with status 400 and the
    guidance message, the state untouched.  Neither an exception of the
    collaborator, nor the failed import, nor an exception of the
    generator leaves it. *)
Theorem handler_returns_or_raises_400 `{Unicode}
    (db : database) (now : str) (req : AnalyzeRequest) (w : world) :
  ((15 <= length (strip (prompt req)))%nat
   /\ exists response, (analyze_decision db now req w).1 = inr response)
  \/ ((length (strip (prompt req)) < 15)%nat
      /\ analyze_decision db now req w
         = (inl (HTTPException 400 guidance), w)).
Proof.
  destruct (Nat.le_gt_cases 15 (length (strip (prompt req)))) as [L|L].
  - left. split; [done|].
    rewrite (analyze_valid db now req w L). destruct db; simpl; eauto.
  - right. split; [done|]. by apply too_short.
Qed.

(** X10.  The status code of the route, for every body whose prompt is
    a string and every collaborator that keeps its contract: 500 when
    the prompt holds a lone surrogate; else 422 for a prompt of fewer
    than 15 characters; else 400 when the trimmed length is below 15;
    else 200, unless the clock text or the identifier that
    [create_document] returned for the payload holds a lone surrogate,
    in which case the response cannot be encoded and the status is
    500. *)
Theorem route_status_table `{Unicode}
    (db : database) (now body_prompt : str) (w : world) :
  exists rs,
    (generated_records body_prompt w).1 = inr rs
    /\ let payload := {| p_prompt := body_prompt;
                         p_robot_message := the_robot_message;
                         p_recommendations := rs;
                         p_metadata :=
                           {| received_at := now;
                              length_ := length body_prompt |};
                         p_type := py "decision_route" |} in
       let identifier :=
         match db with
         | NoDatabase => None
         | Database create_document =>
             match create_document (py "decisionroute") payload with
             | inr i => i
             | inl _ => None
             end
         end in
       status_code_of (post_analyze db now body_prompt w).1
       = if negb (encodable body_prompt) then 500
         else if (length body_prompt <? 15)%nat then 422
         else if (length (strip body_prompt) <? 15)%nat then 400
         else if encodable now
                 && match identifier with
                    | Some i => encodable i
                    | None => true
                    end
              then 200
              else 500.
Proof.
  pose proof (generated_run body_prompt w) as G. cbv zeta in G.
  eexists. split; [by rewrite G|]. cbv zeta.
  unfold post_analyze, validate_AnalyzeRequest.
  destruct (negb (encodable body_prompt)); [done|].
  destruct (length body_prompt <? 15)%nat; [done|].
  destruct (Nat.ltb_spec (length (strip body_prompt)) 15) as [L|L].
  - by rewrite too_short.
  - rewrite (analyze_valid db now {| prompt := body_prompt |} w L).
    cbv zeta. cbn [prompt].
    destruct db as [|f]; unfold response_encodable;
      cbn [metadata received_at decision_id].
    + by destruct (encodable now).
    + destruct (f (py "decisionroute") _) as [e|[i|]];
        cbn [metadata received_at decision_id];
        by destruct (encodable now && _).
Qed.

(** X11.  A successful request makes one persistence attempt at most,
    and it is of what the response holds.  With the module present the
    vault receives exactly one call, to the collection [decisionroute],
    with the untrimmed prompt, the message, the recommendations and the
    metadata of the response and the type [decision_route], whether the
    call then raises or not; with the module missing no call is made.
    The metadata hold the clock value and the untrimmed length.  The
    store grows by the three objects of the request, the older objects
    being left as they were. *)
Theorem one_persistence_attempt_of_the_response `{Unicode}
    (db : database) (now : str) (req : AnalyzeRequest) (w : world) :
  (15 <= length (strip (prompt req)))%nat ->
  exists response w',
    analyze_decision db now req w = (inr response, w')
    /\ metadata response
       = {| received_at := now; length_ := length (prompt req) |}
    /\ vault w'
       = vault w
         ++ match db with
            | NoDatabase => []
            | Database _ =>
                [(py "decisionroute",
                  {| p_prompt := prompt req;
                     p_robot_message := robot_message response;
                     p_recommendations := recommendations response;
                     p_metadata := metadata response;
                     p_type := py "decision_route" |})]
            end
    /\ length (heap w') = (length (heap w) + 3)%nat
    /\ take (length (heap w)) (heap w') = heap w.
Proof.
  intros L. rewrite (analyze_valid db now req w L). cbv zeta.
  destruct db as [|f]; eexists _, _; (split; [reflexivity|]);
    cbn [metadata robot_message recommendations heap vault];
    (split; [reflexivity|]).
  - split; [by rewrite app_nil_r|].
    split; [by rewrite length_app|apply take_app_length].
  - split; [reflexivity|].
    split; [by rewrite length_app|apply take_app_length].
Qed.

Lemma one_persistence_attempt_of_the_response_witness :
  (15 <= length (strip (py "laptop de 25k mxn para gpu")))%nat
  /\ exists response w',
       @analyze_decision Latin1.unicode
         (Database (fun _ _ => inl (CollaboratorError (py "no connection"))))
         (py "2026-01-01T00:00:00+00:00")
         {| prompt := py "laptop de 25k mxn para gpu" |}
         {| heap := []; vault := [] |} = (inr response, w')
       /\ length (vault w') = 1%nat
       /\ length (heap w') = 3%nat.
Proof.
  assert (V : (15 <= length (strip (py "laptop de 25k mxn para gpu")))%nat)
    by (vm_compute; lia).
  split; [exact V|].
  destruct (@one_persistence_attempt_of_the_response Latin1.unicode
              (Database (fun _ _ => inl (CollaboratorError (py "no connection"))))
              (py "2026-01-01T00:00:00+00:00")
              {| prompt := py "laptop de 25k mxn para gpu" |}
              {| heap := []; vault := [] |} V)
    as (response & w' & E & _ & Hv & Hh & _).
  exists response, w'. split; [exact E|].
  split; [by rewrite Hv|exact Hh].
Defined.

Section StripFacts.

Local Abbreviation blank := (Forall (fun c : Z => isspace c = true)).

Lemma lstrip_blank_app l s : blank l -> lstrip (l ++ s) = lstrip s.
Proof. induction 1 as [|c l W _ IH]; simpl; [done|]. by rewrite W. Qed.

Lemma lstrip_blank l : blank l -> lstrip l = [].
Proof. intros B. rewrite <- (app_nil_r l). by rewrite lstrip_blank_app. Qed.

Lemma blank_rev r : blank r -> blank (rev r).
Proof.
  intros B. apply List.Forall_forall. intros c I%List.in_rev.
  rewrite List.Forall_forall in B. by apply B.
Qed.

Lemma rstrip_app_blank s r : blank r -> rstrip (s ++ r) = rstrip s.
Proof.
  intros B. unfold rstrip. rewrite List.rev_app_distr.
  by rewrite lstrip_blank_app by (by apply blank_rev).
Qed.

Lemma strip_app_blank p r : blank r -> strip (p ++ r) = strip p.
Proof.
  intros B. unfold strip. induction p as [|c p IH]; simpl.
  - by rewrite lstrip_blank.
  - destruct (isspace c); [exact IH|].
    change (c :: p ++ r) with ((c :: p) ++ r).
    by rewrite (rstrip_app_blank (c :: p) r B).
Qed.

Lemma strip_padded l p r : blank l -> blank r -> strip (l ++ p ++ r) = strip p.
Proof.
  intros Bl Br. unfold strip. rewrite lstrip_blank_app by done.
  by apply strip_app_blank.
Qed.

End StripFacts.

Lemma handler_accepts_iff `{Unicode} db now req w :
  (exists response, (analyze_decision db now req w).1 = inr response)
  <-> (15 <= length (strip (prompt req)))%nat.
Proof.
  split.
  - intros [response E].
    destruct (Nat.le_gt_cases 15 (length (strip (prompt req)))) as [L|L];
      [done|].
    by rewrite (too_short db now req w L) in E.
  - intros L. rewrite (analyze_valid db now req w L). destruct db; simpl; eauto.
Qed.

(** X12.  Blanks around the prompt do not count for the handler: with
    blank characters added in front and behind, the trimmed prompt is
    the same, and the handler accepts the padded prompt exactly when it
    accepts the prompt. *)
Theorem padding_does_not_change_acceptance `{Unicode}
    (db : database) (now front p back : str) (w : world) :
  Forall (fun c => isspace c = true) front ->
  Forall (fun c => isspace c = true) back ->
  strip (front ++ p ++ back) = strip p
  /\ ((exists response,
         (analyze_decision db now {| prompt := front ++ p ++ back |} w).1
         = inr response)
      <-> (exists response,
             (analyze_decision db now {| prompt := p |} w).1 = inr response)).
Proof.
  intros Bf Bb. pose proof (strip_padded front p back Bf Bb) as S.
  split; [exact S|].
  rewrite !handler_accepts_iff. cbn [prompt]. by rewrite S.
Qed.

Lemma padding_does_not_change_acceptance_witness :
  Forall (fun c => isspace c = true) (py "  ")
  /\ Forall (fun c => isspace c = true) (py "   ")
  /\ strip (py "  " ++ py "hola mundo" ++ py "   ") = strip (py "hola mundo").
Proof.
  assert (B1 : Forall (fun c => isspace c = true) (py "  "))
    by (vm_compute; repeat constructor).
  assert (B2 : Forall (fun c => isspace c = true) (py "   "))
    by (vm_compute; repeat constructor).
  split; [exact B1|]. split; [exact B2|].
  exact (proj1 (@padding_does_not_change_acceptance Latin1.unicode
                  NoDatabase (py "2026-01-01T00:00:00+00:00")
                  (py "  ") (py "hola mundo") (py "   ")
                  {| heap := []; vault := [] |} B1 B2)).
Defined.

(** X13.  A prompt made of blank characters only is rejected by the
    handler with status 400, however long it is. *)
Theorem blank_prompt_is_rejected `{Unicode}
    (db : database) (now p : str) (w : world) :
  Forall (fun c => isspace c = true) p ->
  analyze_decision db now {| prompt := p |} w
  = (inl (HTTPException 400 guidance), w).
Proof.
  intros B. apply too_short. cbn [prompt].
  unfold strip. rewrite (lstrip_blank p B). simpl. lia.
Qed.

Lemma blank_prompt_is_rejected_witness :
  Forall (fun c => isspace c = true) (py "                    ")
  /\ (length (py "                    ") = 20)%nat
  /\ @analyze_decision Latin1.unicode NoDatabase
       (py "2026-01-01T00:00:00+00:00")
       {| prompt := py "                    " |} {| heap := []; vault := [] |}
     = (inl (HTTPException 400 guidance), {| heap := []; vault := [] |}).
Proof.
  assert (B : Forall (fun c => isspace c = true) (py "                    "))
    by (vm_compute; repeat constructor).
  split; [exact B|]. split; [vm_compute; reflexivity|].
  exact (@blank_prompt_is_rejected Latin1.unicode NoDatabase
           (py "2026-01-01T00:00:00+00:00") (py "                    ")
           {| heap := []; vault := [] |} B).
Defined.

(** * Properties of the database probe *)

Ltac probe_fields :=
  cbn [set_database set_database_url set_database_name
         set_connection_status set_collections
         t_backend t_database t_database_url t_database_name
         t_connection_status t_collections].

Lemma Probe_ext (r r' : Probe) :
  t_backend r = t_backend r' ->
  t_database r = t_database r' ->
  t_database_url r = t_database_url r' ->
  t_database_name r = t_database_name r' ->
  t_connection_status r = t_connection_status r' ->
  t_collections r = t_collections r' ->
  r = r'.
Proof. destruct r, r'; simpl; congruence. Qed.

(** X14.  The keys [database_url] and [database_name] of the probe's
    answer tell whether the two environment variables are set and non
    empty, and nothing else: what was stored there from [db] is
    overwritten, so the attribute [name] of [db] never shows in the
    answer. *)
Theorem probe_reports_environment_only
    (imported : db_import) (getenv : str -> option str) :
  t_database_url (test_database imported getenv)
  = Some (if env_set getenv (py "DATABASE_URL")
          then py "✅ Set" else py "❌ Not Set")
  /\ t_database_name (test_database imported getenv)
     = Some (if env_set getenv (py "DATABASE_NAME")
             then py "✅ Set" else py "❌ Not Set")
  /\ forall db name,
       test_database (Imported (Some db)) getenv
       = test_database
           (Imported (Some {| db_name := name;
                              list_collection_names :=
                                list_collection_names db |})) getenv.
Proof.
  split; [unfold test_database; by probe_fields|].
  split; [unfold test_database; by probe_fields|].
  intros db name. unfold test_database. cbn [list_collection_names].
  destruct (list_collection_names db); apply Probe_ext; by probe_fields.
Qed.

(** X15.  The probe lists ten collections at most: the first ten names
    that [list_collection_names] returned, in their order; and none
    when the module is missing, [db] is [None] or the listing raised. *)
Theorem probe_lists_at_most_ten_collections
    (imported : db_import) (getenv : str -> option str) :
  (length (t_collections (test_database imported getenv)) <= 10)%nat
  /\ ((exists db names,
         imported = Imported (Some db)
         /\ list_collection_names db = inr names
         /\ t_collections (test_database imported getenv) = take 10 names)
      \/ ((forall db names,
             imported = Imported (Some db) ->
             list_collection_names db <> inr names)
          /\ t_collections (test_database imported getenv) = [])).
Proof.
  destruct imported as [|e|[db|]]; unfold test_database.
  1,2,4: probe_fields; split; [simpl; lia|]; right;
         split; [intros ? ? [=]|reflexivity].
  destruct (list_collection_names db) as [e|names] eqn:L; probe_fields.
  - split; [simpl; lia|]. right. split; [|reflexivity].
    intros db' names' [= <-]. by rewrite L.
  - split; [rewrite length_take; lia|]. left. by exists db, names.
Qed.

Ltac py_eval_in H :=
  repeat match type of H with
         | context [py ?s] =>
             let v := eval vm_compute in (py s) in
             change (py s) with v in H
         end.

(** X16.  The probe answers [Connected] exactly when the module was
    imported with a [db] that is not [None], and [Connected & Working]
    exactly when, moreover, the collections could be listed; the key
    [backend] always says [Running]. *)
Theorem probe_tells_connection_from_listing
    (imported : db_import) (getenv : str -> option str) :
  t_backend (test_database imported getenv) = py "✅ Running"
  /\ (t_connection_status (test_database imported getenv) = py "Connected"
      <-> exists db, imported = Imported (Some db))
  /\ (t_database (test_database imported getenv) = py "✅ Connected & Working"
      <-> exists db names,
            imported = Imported (Some db)
            /\ list_collection_names db = inr names).
Proof.
  split; [|split].
  - unfold test_database.
    destruct imported as [|e|[db|]]; [| | |]; try by probe_fields.
    destruct (list_collection_names db); by probe_fields.
  - unfold test_database. destruct imported as [|e|[db|]].
    1,2,4: probe_fields; split;
           [intros E; py_eval_in E; discriminate E|intros (? & [=])].
    destruct (list_collection_names db); probe_fields; split; eauto.
  - unfold test_database. destruct imported as [|e|[db|]].
    1,2,4: probe_fields; split;
           [intros E; py_eval_in E; discriminate E|intros (? & ? & [=] & _)].
    destruct (list_collection_names db) as [e|names] eqn:L; probe_fields.
    + split; [intros E; py_eval_in E; discriminate E|].
      intros (db' & names' & [= <-] & L'). congruence.
    + split; [|done]. intros _. by exists db, names.
Qed.

(** X17.  The text under the key [database] is bounded: the message of
    an exception is cut to its first 50 characters, and the text never
    exceeds 75 characters, whatever [db] and the exceptions are. *)
Theorem probe_database_text_is_bounded
    (imported : db_import) (getenv : str -> option str) :
  (length (t_database (test_database imported getenv)) <= 75)%nat.
Proof.
  unfold test_database. destruct imported as [|e|[db|]].
  4: probe_fields; vm_compute; lia.
  1: probe_fields; vm_compute; lia.
  - probe_fields. rewrite length_app, length_take.
    change (length (py "❌ Error: ")) with 9%nat. lia.
  - destruct (list_collection_names db) as [e|names]; probe_fields.
    + rewrite length_app, length_take.
      change (length (py "⚠️  Connected but Error: ")) with 25%nat. lia.
    + vm_compute; lia.
Qed.

(** * Independence of casing *)

(** X18.  The generator reads the prompt through its lowercased form
    only, the budget pattern included: two prompts with the same
    lowercased text get the same recommendations. *)
Theorem casing_of_the_prompt_is_irrelevant `{Unicode}
    (p1 p2 : str) (w1 w2 : world) :
  lower p1 = lower p2 ->
  exists rs,
    (generated_records p1 w1).1 = inr rs
    /\ (generated_records p2 w2).1 = inr rs.
Proof.
  intros E.
  pose proof (generated_run p1 w1) as G1. cbv zeta in G1.
  pose proof (generated_run p2 w2) as G2. cbv zeta in G2.
  rewrite G1, G2, E. simpl. eauto.
Qed.

Lemma casing_of_the_prompt_is_irrelevant_witness :
  @lower Latin1.unicode (py "Necesito GPU y 25 MIL")
  = @lower Latin1.unicode (py "necesito gpu y 25 mil")
  /\ exists rs,
       (@generated_records Latin1.unicode (py "Necesito GPU y 25 MIL")
          {| heap := []; vault := [] |}).1 = inr rs
       /\ (@generated_records Latin1.unicode (py "necesito gpu y 25 mil")
             {| heap := []; vault := [] |}).1 = inr rs.
Proof.
  split; [vm_compute; reflexivity|].
  apply (@casing_of_the_prompt_is_irrelevant Latin1.unicode).
  vm_compute; reflexivity.
Defined.
